(** * Mock backends of the Service Extensions demos

    A shallow embedding of the two Flask applications
      cloudrun-wasm/01-edge-security/infrastructure/backend/app.py
      cloudrun-wasm/02-smart-router/infrastructure/backend/app.py
    and the properties their description states about them.

    The views, the error handlers and the route registrations are
    transcribed from the two files.  What the files import from Flask and
    Werkzeug (the request object, URL matching with its WebSocket check and
    its merging of slashes, the rule for the static folder, the dispatch of
    exceptions to registered handlers) is modelled in [Module Flask], as far
    as the two applications use it.  The [app] object is modelled as a WSGI
    server runs it; the development switch of [app.run] is outside the
    model. *)

From Stdlib Require Import ZArith String Ascii List Bool Lia.
Import ListNotations.
Local Open Scope string_scope.
Local Open Scope Z_scope.
Set Warnings "-register-all".

(* ------------------------------------------------------------------------- *)
(** ** JSON trees: the argument of [jsonify] *)

Module Json.

(** A Python value that [jsonify] serialises.  A [dict] is kept as the list
    of its items in insertion order. *)
Inductive json : Type :=
| JNull
| JBool (b : bool)
| JInt (n : Z)
| JStr (s : string)
| JArr (items : list json)
| JObj (fields : list (string * json)).

(** [d.get(k)] on an item list. *)
Fixpoint lookup {V : Type} (k : string) (d : list (string * V)) : option V :=
  match d with
  | [] => None
  | (k', v) :: d' => if String.eqb k' k then Some v else lookup k d'
  end.

Definition keys {V : Type} (d : list (string * V)) : list string :=
  map fst d.

(** [j[k]] when [j] is an object. *)
Definition field (k : string) (j : json) : option json :=
  match j with
  | JObj d => lookup k d
  | _ => None
  end.

(** [j[k1][k2]]. *)
Definition field2 (k1 k2 : string) (j : json) : option json :=
  match field k1 j with
  | Some j' => field k2 j'
  | None => None
  end.

(** Does some object anywhere in the tree have a field named [k]? *)
Fixpoint has_field (k : string) (j : json) : bool :=
  match j with
  | JArr items =>
      (fix in_items (l : list json) : bool :=
         match l with
         | [] => false
         | x :: l' => has_field k x || in_items l'
         end) items
  | JObj d =>
      (fix in_fields (l : list (string * json)) : bool :=
         match l with
         | [] => false
         | (k', v) :: l' => String.eqb k' k || has_field k v || in_fields l'
         end) d
  | _ => false
  end.

(** [d[k] = v]: an existing key keeps its place, a new one goes last. *)
Fixpoint dict_set {V : Type} (k : string) (v : V) (d : list (string * V))
  : list (string * V) :=
  match d with
  | [] => [(k, v)]
  | (k', v') :: d' =>
      if String.eqb k' k then (k', v) :: d' else (k', v') :: dict_set k v d'
  end.

(** A [dict] of strings as a JSON object. *)
Definition of_str_dict (d : list (string * string)) : json :=
  JObj (map (fun kv => (fst kv, JStr (snd kv))) d).

Definition of_str_list (l : list string) : json := JArr (map JStr l).

End Json.
Import Json.

(* ------------------------------------------------------------------------- *)
(** ** The part of Flask and Werkzeug the applications use *)

Module Flask.

(** *** Requests *)

(** The request the views read through the [request] proxy.
    [req_path] is [request.path], [req_headers] is what iterating
    [request.headers] yields, [req_args] what iterating
    [request.args.items(multi=True)] yields, [req_data] the raw body, a byte
    string. *)
Record request : Type := {
  req_method : string;
  req_path : string;
  req_headers : list (string * string);
  req_args : list (string * string);
  req_data : string;
  req_remote_addr : option string
}.

Definition lower_ascii (c : ascii) : ascii :=
  let n := N_of_ascii c in
  if (N.leb 65 n && N.leb n 90)%bool then ascii_of_N (n + 32) else c.

Fixpoint lower (s : string) : string :=
  match s with
  | EmptyString => EmptyString
  | String c s' => String (lower_ascii c) (lower s')
  end.

(** Header names compare without regard to case. *)
Definition header_eqb (a b : string) : bool :=
  String.eqb (lower a) (lower b).

(** [headers.get(name)]: the first header of that name. *)
Fixpoint headers_find (name : string) (hs : list (string * string))
  : option string :=
  match hs with
  | [] => None
  | (k, v) :: hs' =>
      if header_eqb k name then Some v else headers_find name hs'
  end.

(** [headers.get(name, default)]. *)
Definition headers_get (hs : list (string * string)) (name default : string)
  : string :=
  match headers_find name hs with
  | Some v => v
  | None => default
  end.

(** [dict(request.headers)].  The headers object has [keys()] and
    [__getitem__], so [dict] takes each name that iteration yields and stores
    [headers[name]] under it: the first value of that name. *)
Definition headers_dict (hs : list (string * string))
  : list (string * string) :=
  fold_left
    (fun d k =>
       match headers_find k hs with
       | Some v => dict_set k v d
       | None => d
       end) (keys hs) [].

(** [dict(request.args)]: each key once, with its first value. *)
Definition args_dict (args : list (string * string))
  : list (string * string) :=
  fold_left
    (fun d kv =>
       match lookup (fst kv) d with
       | Some _ => d
       | None => (d ++ [kv])%list
       end) args [].

(** [request.get_data(as_text=True)] decodes the raw body with the text
    codec of the runtime.  The codec is not part of the applications; it is
    an interface here, with the one law the properties rely on. *)
Definition is_ascii (s : string) : bool :=
  forallb (fun c => N.ltb (N_of_ascii c) 128) (list_ascii_of_string s).

Class TextCodec : Type := {
  decode_text : string -> string;
  decode_text_ascii : forall s, is_ascii s = true -> decode_text s = s
}.

(** [int(delta.total_seconds())] for a [timedelta] of [delta]
    microseconds.  [total_seconds] divides the microsecond count by 10^6
    and [int] truncates toward zero; the division is carried out in
    floating point, which below 2^53 microseconds does not change the
    truncated quotient. *)
Definition int_total_seconds (delta : Z) : Z := Z.quot delta 1000000.

(** *** WebSocket upgrade requests

    When Werkzeug binds the URL map to a request it takes the request for a
    WebSocket handshake if some comma-separated item of the Connection
    header is "upgrade" and the Upgrade header is "websocket", both without
    regard to case.  A rule made by [@app.route] is no WebSocket rule. *)

(** The characters [str.strip()] removes, among the first 256. *)
Definition is_space (c : ascii) : bool :=
  let n := N_of_ascii c in
  ((N.leb 9 n && N.leb n 13) || (N.leb 28 n && N.leb n 32)
   || N.eqb n 133 || N.eqb n 160)%bool.

Fixpoint lstrip (s : string) : string :=
  match s with
  | EmptyString => EmptyString
  | String c s' => if is_space c then lstrip s' else s
  end.

(** [s.rstrip()]. *)
Fixpoint rstrip (s : string) : string :=
  match s with
  | EmptyString => EmptyString
  | String c s' =>
      match rstrip s' with
      | EmptyString => if is_space c then EmptyString else String c EmptyString
      | t => String c t
      end
  end.

Definition strip (s : string) : string := rstrip (lstrip s).

(** [s.split(",")]. *)
Fixpoint split_comma (s : string) : list string :=
  match s with
  | EmptyString => [EmptyString]
  | String c s' =>
      if Ascii.eqb c ","%char then EmptyString :: split_comma s'
      else match split_comma s' with
           | [] => [String c EmptyString]
           | item :: items => String c item :: items
           end
  end.

(** The case folding here is that of the ASCII letters; [str.lower] also
    folds other letters, which changes neither test. *)
Definition websocket_upgrade (hs : list (string * string)) : bool :=
  (existsb (fun v => String.eqb (strip v) "upgrade")
           (split_comma (lower (headers_get hs "Connection" "")))
   && String.eqb (lower (headers_get hs "Upgrade" "")) "websocket")%bool.

(** *** Responses *)

Inductive body : Type :=
| JsonBody (j : json)          (* made by [jsonify] *)
| DefaultPage (code : Z)       (* the framework's own page for an HTTP error *)
| RedirectPage (location : string) (* the framework's redirect to a path *)
| FileBody (data : string)     (* a file of the static folder *)
| EmptyBody.                   (* the automatic answer to OPTIONS *)

Record response : Type := {
  status : Z;
  resp_body : body
}.

(** [jsonify(j)], and [(jsonify(j), code)] as a view's return value. *)
Definition jsonify (j : json) : response :=
  {| status := 200; resp_body := JsonBody j |}.

Definition with_status (r : response) (code : Z) : response :=
  {| status := code; resp_body := resp_body r |}.

(** *** Exceptions *)

Inductive exception : Type :=
| NotFound
| MethodNotAllowed (valid_methods : list string)
| BadRequest                           (* Werkzeug's [WebsocketMismatch] *)
| RequestRedirect (new_path : string)
| InternalServerError (original : exception)
| PyError (cls message : string).      (* anything that is no HTTPException *)

(** [e.code] of an [HTTPException]; [None] for any other exception. *)
Definition http_code (e : exception) : option Z :=
  match e with
  | NotFound => Some 404
  | MethodNotAllowed _ => Some 405
  | BadRequest => Some 400
  | RequestRedirect _ => Some 308
  | InternalServerError _ => Some 500
  | PyError _ _ => None
  end.

(** *** Process state and logging *)

(** What a log call interpolates into its message. *)
Inductive log_arg : Type :=
| ArgNone
| ArgHeaders (d : list (string * string))
| ArgError (e : exception)
| ArgRequest (path method : string) (e : exception).

Record log_record : Type := {
  levelno : Z;
  msg : string;
  arg : log_arg
}.

Definition DEBUG : Z := 10.
Definition INFO : Z := 20.
Definition ERROR : Z := 40.

(** The module globals of an application: [START_TIME], read only after
    start, in microseconds; the level given to [logging.basicConfig]; and
    the records the application has logged, oldest first: those of the
    module's [logger] and those of Flask's logger for the application, which
    reach the same handler. *)
Record globals : Type := {
  START_TIME : Z;
  log_level : Z;
  log_records : list log_record
}.

(** What a view sees besides the globals: the current request and the
    reading [datetime.now(timezone.utc)] gives while it is handled,
    in microseconds. *)
Record context : Type := {
  request_ : request;
  now : Z
}.

Inductive result (A : Type) : Type :=
| Ok (a : A)
| Raise (e : exception).
Arguments Ok {A} a.
Arguments Raise {A} e.

(** A log call: the record is emitted when its level is enabled. *)
Definition emit (level : Z) (m : string) (a : log_arg) (g : globals)
  : globals :=
  if Z.leb (log_level g) level
  then {| START_TIME := START_TIME g;
          log_level := log_level g;
          log_records :=
            (log_records g
               ++ [{| levelno := level; msg := m; arg := a |}])%list |}
  else g.

(** Code that reads the request context and [START_TIME], may log, and
    returns or raises: the tree of the accesses it makes, each followed by
    what it does with the answer. *)
Inductive M (A : Type) : Type :=
| Ret (a : A)
| Throw (e : exception)
| GetRequest (k : request -> M A)
| GetNow (k : Z -> M A)
| GetStart (k : Z -> M A)
| Emit (level : Z) (m : string) (a : log_arg) (k : M A).
Arguments Ret {A} a.
Arguments Throw {A} e.
Arguments GetRequest {A} k.
Arguments GetNow {A} k.
Arguments GetStart {A} k.
Arguments Emit {A} level m a k.

(** Running such code to its end, with nothing else touching the globals. *)
Fixpoint run {A : Type} (c : M A) (ctx : context) (g : globals)
  : result A * globals :=
  match c with
  | Ret a => (Ok a, g)
  | Throw e => (Raise e, g)
  | GetRequest k => run (k (request_ ctx)) ctx g
  | GetNow k => run (k (now ctx)) ctx g
  | GetStart k => run (k (START_TIME g)) ctx g
  | Emit level m a k => run k ctx (emit level m a g)
  end.

Coercion run : M >-> Funclass.

Definition ret {A : Type} (a : A) : M A := Ret a.

Fixpoint bind {A B : Type} (c : M A) (k : A -> M B) : M B :=
  match c with
  | Ret a => k a
  | Throw e => Throw e
  | GetRequest f => GetRequest (fun r => bind (f r) k)
  | GetNow f => GetNow (fun t => bind (f t) k)
  | GetStart f => GetStart (fun t => bind (f t) k)
  | Emit level m a c' => Emit level m a (bind c' k)
  end.

Definition raise {A : Type} (e : exception) : M A := Throw e.

(** [try: c except Exception as e: h(e)]. *)
Fixpoint try_except {A : Type} (c : M A) (h : exception -> M A) : M A :=
  match c with
  | Ret a => Ret a
  | Throw e => h e
  | GetRequest f => GetRequest (fun r => try_except (f r) h)
  | GetNow f => GetNow (fun t => try_except (f t) h)
  | GetStart f => GetStart (fun t => try_except (f t) h)
  | Emit level m a c' => Emit level m a (try_except c' h)
  end.

Definition get_request : M request := GetRequest Ret.
Definition get_now : M Z := GetNow Ret.
Definition get_START_TIME : M Z := GetStart Ret.

(** [logger.log(level, ...)]. *)
Definition logger_log (level : Z) (m : string) (a : log_arg) : M unit :=
  Emit level m a (Ret tt).

Definition logger_info (m : string) : M unit := logger_log INFO m ArgNone.
Definition logger_debug (m : string) (a : log_arg) : M unit :=
  logger_log DEBUG m a.
Definition logger_error (m : string) (a : log_arg) : M unit :=
  logger_log ERROR m a.

Declare Scope flask_scope.
Delimit Scope flask_scope with flask.
Notation "x <- m ;; k" := (bind m (fun x => k))
  (at level 100, m at next level, right associativity) : flask_scope.
Notation "m ;;; k" := (bind m (fun _ => k))
  (at level 100, right associativity) : flask_scope.

(** *** URL rules and matching *)

Record rule (E : Type) : Type := {
  rule_path : string;
  rule_methods : list string;
  rule_endpoint : E
}.
Arguments rule_path {E} r.
Arguments rule_methods {E} r.
Arguments rule_endpoint {E} r.

Definition mem (s : string) (l : list string) : bool :=
  existsb (String.eqb s) l.

(** [@app.route(path, methods=...)]: without [methods] a rule takes GET;
    a rule that takes GET takes HEAD; every rule takes OPTIONS, which the
    framework answers itself. *)
Definition route {E : Type} (path : string) (methods : option (list string))
           (endpoint : E) : rule E :=
  let ms := match methods with
            | Some ms => ms
            | None => ["GET"]
            end in
  let ms := if mem "GET" ms then (ms ++ ["HEAD"])%list else ms in
  {| rule_path := path;
     rule_methods := (ms ++ ["OPTIONS"])%list;
     rule_endpoint := endpoint |}.

(** *** The application object *)

(** [url_map] holds the rules made by [@app.route], all of them literal
    paths.  [send_static_file] is the view of the rule
    /static/<path:filename> that [Flask(__name__)] registers for its static
    folder, and [None] for an application made without one. *)
Record flask (E : Type) : Type := {
  url_map : list (rule E);
  view_functions : E -> M response;
  error_handlers : Z -> option (exception -> M response);
  send_static_file : option (string -> M response)
}.
Arguments url_map {E} f.
Arguments view_functions {E} f.
Arguments error_handlers {E} f.
Arguments send_static_file {E} f.

(** The files of the static folder: what [send_from_directory] answers for
    a file name and a request, or [None] when it raises [NotFound].  The
    folder is outside the applications; its content is taken as fixed while
    the process runs. *)
Class StaticFolder : Type := {
  static_file : string -> request -> option response
}.

Definition flask_send_static_file {static : StaticFolder} (filename : string)
  : M response :=
  (req <- get_request ;;
   match static_file filename req with
   | Some r => ret r
   | None => raise NotFound
   end)%flask.

(** *** Matching a request against the rules *)

(** [re.sub("/{2,}?", "/", path)]: every two slashes, from the left, become
    one. *)
Fixpoint merge_slashes (path : string) : string :=
  match path with
  | EmptyString => EmptyString
  | String c rest =>
      match rest with
      | String c' rest' =>
          if (Ascii.eqb c "/"%char && Ascii.eqb c' "/"%char)%bool
          then String "/"%char (merge_slashes rest')
          else String c (merge_slashes rest)
      | EmptyString => String c EmptyString
      end
  end.

Fixpoint strip_prefix (p s : string) : option string :=
  match p with
  | EmptyString => Some s
  | String c p' =>
      match s with
      | String c' s' => if Ascii.eqb c c' then strip_prefix p' s' else None
      | EmptyString => None
      end
  end.

(** The file name under which /static/<path:filename> matches a path: what
    follows "/static/", when that is not empty, does not begin with a slash
    and has no line feed after its first character. *)
Definition static_match (path : string) : option string :=
  match strip_prefix "/static/" path with
  | Some (String c rest) =>
      if (negb (Ascii.eqb c "/"%char)
          && forallb (fun x => negb (Ascii.eqb x "010"%char))
                     (list_ascii_of_string rest))%bool
      then Some (String c rest)
      else None
  | _ => None
  end.

Inductive matched (E : Type) : Type :=
| MatchedRule (ru : rule E)
| MatchedStatic (filename : string).
Arguments MatchedRule {E} ru.
Arguments MatchedStatic {E} filename.

Definition static_methods : list string := ["GET"; "HEAD"; "OPTIONS"].

(** The rules whose pattern matches a path, each with its methods. *)
Definition candidates {E : Type} (app : flask E) (path : string)
  : list (list string * matched E) :=
  (map (fun ru => (rule_methods ru, MatchedRule ru))
       (filter (fun ru => String.eqb (rule_path ru) path) (url_map app))
   ++ match send_static_file app, static_match path with
      | Some _, Some filename => [(static_methods, MatchedStatic filename)]
      | _, _ => []
      end)%list.

(** What the matcher has seen while no rule fitted: the methods of the rules
    that matched the path but not the method, and whether a rule matched
    path and method but not the kind of request. *)
Record seen : Type := {
  have_match_for : list string;
  websocket_mismatch : bool
}.

Definition add_methods (ms acc : list string) : list string :=
  fold_left (fun a m => if mem m a then a else (a ++ [m])%list) ms acc.

(** One pass over the rules that match the path. *)
Fixpoint match_pass {E : Type} (cands : list (list string * matched E))
         (websocket : bool) (method : string) (s : seen)
  : option (matched E) * seen :=
  match cands with
  | [] => (None, s)
  | (methods, target) :: rest =>
      if negb (mem method methods)
      then match_pass rest websocket method
             {| have_match_for := add_methods methods (have_match_for s);
                websocket_mismatch := websocket_mismatch s |}
      else if websocket
      then match_pass rest websocket method
             {| have_match_for := have_match_for s;
                websocket_mismatch := true |}
      else (Some target, s)
  end.

(** Werkzeug's matching.  When no rule fits the path as it is, the path with
    its slashes merged is tried; a rule that fits that path makes a redirect
    to it.  Otherwise a method mismatch gives [MethodNotAllowed], else a
    WebSocket mismatch gives [BadRequest], else [NotFound]. *)
Definition url_match {E : Type} (app : flask E) (websocket : bool)
           (method path : string) : result (matched E) :=
  match match_pass (candidates app path) websocket method
          {| have_match_for := []; websocket_mismatch := false |} with
  | (Some target, _) => Ok target
  | (None, s1) =>
      match match_pass (candidates app (merge_slashes path))
                       websocket method s1 with
      | (Some _, _) => Raise (RequestRedirect (merge_slashes path))
      | (None, s2) =>
          match have_match_for s2 with
          | _ :: _ => Raise (MethodNotAllowed (have_match_for s2))
          | [] =>
              if websocket_mismatch s2 then Raise BadRequest
              else Raise NotFound
          end
      end
  end.

(** *** Request handling *)

(** The response an [HTTPException] is when no handler is registered. *)
Definition default_response (code : Z) : response :=
  {| status := code; resp_body := DefaultPage code |}.

Definition redirect_response (location : string) : response :=
  {| status := 308; resp_body := RedirectPage location |}.

Definition options_response : response :=
  {| status := 200; resp_body := EmptyBody |}.

Definition dispatch_request {E : Type} (app : flask E) : M response :=
  (req <- get_request ;;
   match url_match app (websocket_upgrade (req_headers req))
                   (req_method req) (req_path req) with
   | Raise e => raise e
   | Ok target =>
       if String.eqb (req_method req) "OPTIONS"
       then ret options_response
       else match target with
            | MatchedRule ru => view_functions app (rule_endpoint ru)
            | MatchedStatic filename =>
                match send_static_file app with
                | Some view => view filename
                | None => raise NotFound
                end
            end
   end)%flask.

(** A routing redirect is the response itself.  Any other [HTTPException]
    goes to the handler registered for its code, or is the response itself;
    any other exception is raised again. *)
Definition handle_user_exception {E : Type} (app : flask E) (e : exception)
  : M response :=
  match e with
  | RequestRedirect new_path => ret (redirect_response new_path)
  | _ =>
      match http_code e with
      | Some code =>
          match error_handlers app code with
          | Some h => h e
          | None => ret (default_response code)
          end
      | None => raise e
      end
  end.

(** [app.log_exception]: Flask's own record of an unhandled exception. *)
Definition log_exception (e : exception) : M unit :=
  (req <- get_request ;;
   logger_error "Exception on {request.path} [{request.method}]"
                (ArgRequest (req_path req) (req_method req) e))%flask.

(** An exception nothing handled is logged and becomes an
    [InternalServerError], which goes to the handler registered for 500. *)
Definition handle_exception {E : Type} (app : flask E) (e : exception)
  : M response :=
  (log_exception e ;;;
   let server_error := InternalServerError e in
   match error_handlers app 500 with
   | Some h => h server_error
   | None => ret (default_response 500)
   end)%flask.

Definition full_dispatch_request {E : Type} (app : flask E) : M response :=
  try_except (dispatch_request app) (handle_user_exception app).

Definition wsgi_app {E : Type} (app : flask E) : M response :=
  try_except (full_dispatch_request app) (handle_exception app).

End Flask.
Import Flask.
(* ------------------------------------------------------------------------- *)
(** ** 01-edge-security/infrastructure/backend/app.py *)

Module EdgeSecurity.

Inductive endpoint : Type :=
| ep_health
| ep_get_user
| ep_get_user_clean
| ep_get_users
| ep_debug_headers.

Definition health : M response :=
  (t <- get_now ;;
   start <- get_START_TIME ;;
   let uptime := t - start in
   ret (jsonify (JObj [
     ("status", JStr "healthy");
     ("version", JStr "1.0.0");
     ("demo", JStr "01-edge-security");
     ("uptime_seconds", JInt (int_total_seconds uptime))
   ])))%flask.

Definition get_user : M response :=
  (logger_info "GET /api/user - Returning user with PII data" ;;;
   ret (jsonify (JObj [
     ("id", JStr "user-12345");
     ("name", JStr "John Doe");
     ("email", JStr "john.doe@example.com");
     ("phone", JStr "555-123-4567");
     ("ssn", JStr "123-45-6789");
     ("payment", JObj [
        ("card_number", JStr "4111-1111-1111-1111");
        ("expiry", JStr "12/25");
        ("billing_address", JObj [
           ("street", JStr "123 Main St");
           ("city", JStr "Anytown");
           ("state", JStr "CA");
           ("zip", JStr "12345")
        ])
     ]);
     ("created_at", JStr "2024-01-15T10:30:00Z")
   ])))%flask.

Definition get_user_clean : M response :=
  (logger_info "GET /api/user-clean - Returning user without PII data" ;;;
   ret (jsonify (JObj [
     ("id", JStr "user-12345");
     ("name", JStr "John Doe");
     ("membership", JStr "gold");
     ("preferences", JObj [
        ("newsletter", JBool true);
        ("notifications", JBool true)
     ]);
     ("created_at", JStr "2024-01-15T10:30:00Z")
   ])))%flask.

Definition get_users : M response :=
  (logger_info "GET /api/users - Returning multiple users with PII" ;;;
   ret (jsonify (JObj [
     ("users", JArr [
        JObj [
          ("id", JStr "user-001");
          ("name", JStr "Alice Smith");
          ("email", JStr "alice.smith@example.com");
          ("ssn", JStr "111-22-3333");
          ("card", JStr "5500-0000-0000-0004")
        ];
        JObj [
          ("id", JStr "user-002");
          ("name", JStr "Bob Johnson");
          ("email", JStr "bob.j@company.org");
          ("ssn", JStr "444-55-6666");
          ("card", JStr "3400-000000-00009")
        ];
        JObj [
          ("id", JStr "user-003");
          ("name", JStr "Carol Williams");
          ("email", JStr "carol@personal.net");
          ("ssn", JStr "777-88-9999");
          ("card", JStr "6011-0000-0000-0004")
        ]
     ]);
     ("total", JInt 3)
   ])))%flask.

Definition debug_headers : M response :=
  (req <- get_request ;;
   let headers := headers_dict (req_headers req) in
   logger_debug "Request headers: {headers}" (ArgHeaders headers) ;;;
   ret (jsonify (JObj [
     ("headers", of_str_dict headers);
     ("method", JStr (req_method req));
     ("path", JStr (req_path req));
     ("remote_addr", match req_remote_addr req with
                     | Some a => JStr a
                     | None => JNull
                     end)
   ])))%flask.

Definition not_found (error : exception) : M response :=
  (req <- get_request ;;
   ret (with_status (jsonify (JObj [
     ("error", JStr "Not Found");
     ("message",
      JStr ("The requested URL " ++ req_path req ++ " was not found"));
     ("status", JInt 404)
   ])) 404))%flask.

Definition internal_error (error : exception) : M response :=
  (logger_error "Internal error: {error}" (ArgError error) ;;;
   ret (with_status (jsonify (JObj [
     ("error", JStr "Internal Server Error");
     ("message", JStr "An unexpected error occurred");
     ("status", JInt 500)
   ])) 500))%flask.

Definition views (e : endpoint) : M response :=
  match e with
  | ep_health => health
  | ep_get_user => get_user
  | ep_get_user_clean => get_user_clean
  | ep_get_users => get_users
  | ep_debug_headers => debug_headers
  end.

Definition handlers (code : Z) : option (exception -> M response) :=
  if Z.eqb code 404 then Some not_found
  else if Z.eqb code 500 then Some internal_error
  else None.

Section WithStatic.
Context {static : StaticFolder}.

(** [app = Flask(__name__)] with the rules of the decorators. *)
Definition app : flask endpoint := {|
  url_map := [
    route "/health" None ep_health;
    route "/api/user" None ep_get_user;
    route "/api/user-clean" None ep_get_user_clean;
    route "/api/users" None ep_get_users;
    route "/debug/headers" None ep_debug_headers
  ];
  view_functions := views;
  error_handlers := handlers;
  send_static_file := Some flask_send_static_file
|}.

End WithStatic.

End EdgeSecurity.

(* ------------------------------------------------------------------------- *)
(** ** 02-smart-router/infrastructure/backend/app.py *)

Module SmartRouter.

Inductive endpoint : Type :=
| ep_health
| ep_get_version_v1
| ep_get_version_v2
| ep_get_data_v1
| ep_get_data_v2
| ep_debug_headers
| ep_debug_echo.

Definition health : M response :=
  (t <- get_now ;;
   start <- get_START_TIME ;;
   let uptime := t - start in
   ret (jsonify (JObj [
     ("status", JStr "healthy");
     ("version", JStr "1.0.0");
     ("demo", JStr "02-smart-router");
     ("uptime_seconds", JInt (int_total_seconds uptime))
   ])))%flask.

Definition get_version_v1 : M response :=
  (logger_info "GET /v1/api/version - Returning v1 stable response" ;;;
   req <- get_request ;;
   let routed_by := headers_get (req_headers req) "X-Routed-By" "direct" in
   let route_reason :=
     headers_get (req_headers req) "X-Route-Reason" "none" in
   ret (jsonify (JObj [
     ("version", JStr "v1");
     ("environment", JStr "production");
     ("build", JStr "2024.01.15.001");
     ("features", JObj [
        ("new_dashboard", JBool false);
        ("beta_analytics", JBool false)
     ]);
     ("routing_info", JObj [
        ("routed_by", JStr routed_by);
        ("route_reason", JStr route_reason)
     ])
   ])))%flask.

Definition get_version_v2 : M response :=
  (logger_info "GET /v2/api/version - Returning v2 beta response" ;;;
   req <- get_request ;;
   let routed_by := headers_get (req_headers req) "X-Routed-By" "direct" in
   let route_reason :=
     headers_get (req_headers req) "X-Route-Reason" "none" in
   ret (jsonify (JObj [
     ("version", JStr "v2-beta");
     ("environment", JStr "beta");
     ("build", JStr "2024.01.20.042");
     ("features", JObj [
        ("new_dashboard", JBool true);
        ("beta_analytics", JBool true);
        ("experimental_ai", JBool true)
     ]);
     ("routing_info", JObj [
        ("routed_by", JStr routed_by);
        ("route_reason", JStr route_reason)
     ])
   ])))%flask.

Definition get_data_v1 : M response :=
  (logger_info "GET /v1/api/data - Returning v1 data" ;;;
   ret (jsonify (JObj [
     ("version", JStr "v1");
     ("data", JObj [
        ("items", of_str_list ["item1"; "item2"; "item3"]);
        ("count", JInt 3)
     ])
   ])))%flask.

Definition get_data_v2 : M response :=
  (logger_info "GET /v2/api/data - Returning v2 data" ;;;
   ret (jsonify (JObj [
     ("version", JStr "v2-beta");
     ("data", JObj [
        ("items",
         of_str_list ["item1"; "item2"; "item3"; "item4-new"; "item5-beta"]);
        ("count", JInt 5);
        ("enhanced", JBool true);
        ("ai_recommendations", of_str_list ["rec1"; "rec2"])
     ])
   ])))%flask.

Definition debug_headers : M response :=
  (req <- get_request ;;
   let headers := headers_dict (req_headers req) in
   logger_debug "Request headers: {headers}" (ArgHeaders headers) ;;;
   ret (jsonify (JObj [
     ("headers", of_str_dict headers);
     ("method", JStr (req_method req));
     ("path", JStr (req_path req));
     ("remote_addr", match req_remote_addr req with
                     | Some a => JStr a
                     | None => JNull
                     end)
   ])))%flask.

Definition not_found (error : exception) : M response :=
  (req <- get_request ;;
   ret (with_status (jsonify (JObj [
     ("error", JStr "Not Found");
     ("message",
      JStr ("The requested URL " ++ req_path req ++ " was not found"));
     ("status", JInt 404)
   ])) 404))%flask.

Definition internal_error (error : exception) : M response :=
  (logger_error "Internal error: {error}" (ArgError error) ;;;
   ret (with_status (jsonify (JObj [
     ("error", JStr "Internal Server Error");
     ("message", JStr "An unexpected error occurred");
     ("status", JInt 500)
   ])) 500))%flask.

Definition handlers (code : Z) : option (exception -> M response) :=
  if Z.eqb code 404 then Some not_found
  else if Z.eqb code 500 then Some internal_error
  else None.

Section WithCodec.
Context {codec : TextCodec} {static : StaticFolder}.

Definition debug_echo : M response :=
  (req <- get_request ;;
   let response := [
     ("method", JStr (req_method req));
     ("path", JStr (req_path req));
     ("headers", of_str_dict (headers_dict (req_headers req)));
     ("args", of_str_dict (args_dict (req_args req)))
   ] in
   let response :=
     if String.eqb (req_method req) "POST"
     then dict_set "body" (JStr (decode_text (req_data req))) response
     else response in
   ret (jsonify (JObj response)))%flask.

Definition views (e : endpoint) : M response :=
  match e with
  | ep_health => health
  | ep_get_version_v1 => get_version_v1
  | ep_get_version_v2 => get_version_v2
  | ep_get_data_v1 => get_data_v1
  | ep_get_data_v2 => get_data_v2
  | ep_debug_headers => debug_headers
  | ep_debug_echo => debug_echo
  end.

(** The decorators of [get_version_v1] apply bottom up, so the rule for
    /v1/api/version is registered before the one for /api/version. *)
Definition app : flask endpoint := {|
  url_map := [
    route "/health" None ep_health;
    route "/v1/api/version" None ep_get_version_v1;
    route "/api/version" None ep_get_version_v1;
    route "/v2/api/version" None ep_get_version_v2;
    route "/v1/api/data" None ep_get_data_v1;
    route "/v2/api/data" None ep_get_data_v2;
    route "/debug/headers" None ep_debug_headers;
    route "/debug/echo" (Some ["GET"; "POST"]) ep_debug_echo
  ];
  view_functions := views;
  error_handlers := handlers;
  send_static_file := Some flask_send_static_file
|}.

End WithCodec.

End SmartRouter.

(* ------------------------------------------------------------------------- *)
(** ** Serving requests *)

(** The server hands one request to the application, together with the
    reading the clock gives while the request is handled. *)
Definition serve {E : Type} (app : flask E) (g : globals) (t : Z)
           (req : request) : result response * globals :=
  wsgi_app app {| request_ := req; now := t |} g.

(** The body a response carries when it was made by [jsonify]. *)
Definition json_of (r : result response) : option json :=
  match r with
  | Ok {| status := _; resp_body := JsonBody j |} => Some j
  | _ => None
  end.

Definition status_of (r : result response) : option Z :=
  match r with
  | Ok rsp => Some (status rsp)
  | Raise _ => None
  end.

(** A decoder that agrees with UTF-8 on ASCII input and stands in for the
    runtime's codec where a concrete one is needed: any body with a byte
    above 127 decodes to U+FFFD. *)
Definition ascii_decode (s : string) : string :=
  if is_ascii s then s
  else String (ascii_of_N 239) (String (ascii_of_N 191)
         (String (ascii_of_N 189) EmptyString)).

#[local] Instance ascii_codec : TextCodec.
Proof.
  refine {| decode_text := ascii_decode |}.
  intros s Hs. unfold ascii_decode. rewrite Hs. reflexivity.
Defined.

(** A static folder without files, for where a concrete one is needed. *)
#[local] Instance no_static_files : StaticFolder :=
  {| static_file := fun _ _ => None |}.

(* ------------------------------------------------------------------------- *)
(** ** The two instances *)

Inductive instance : Type :=
| edge_security
| smart_router.

Section Instances.
Context {codec : TextCodec} {static : StaticFolder}.

(** One request served by an instance. *)
Definition serve_instance (i : instance) (g : globals) (t : Z)
           (req : request) : result response * globals :=
  match i with
  | edge_security => serve EdgeSecurity.app g t req
  | smart_router => serve SmartRouter.app g t req
  end.

Fixpoint serve_instance_all (i : instance) (g : globals)
         (rs : list (Z * request)) : globals :=
  match rs with
  | [] => g
  | (t, req) :: rs' =>
      serve_instance_all i (snd (serve_instance i g t req)) rs'
  end.

(** The paths an instance has a rule of its own for. *)
Definition routed_paths (i : instance) : list string :=
  match i with
  | edge_security => map rule_path (url_map EdgeSecurity.app)
  | smart_router => map rule_path (url_map SmartRouter.app)
  end.

End Instances.

(* ------------------------------------------------------------------------- *)
(** ** Requests handled at the same time *)

(** A request being handled: the code that is left to run, or the answer.
    The request context belongs to the thread; the globals are shared. *)
Inductive thread : Type :=
| Running (ctx : context) (code : M response)
| Finished (r : result response).

(** One access of a thread, which no other thread interrupts: a read of the
    thread's own context, a read of [START_TIME], or one log call. *)
Definition thread_step (g : globals) (th : thread) : globals * thread :=
  match th with
  | Running ctx code =>
      match code with
      | Ret r => (g, Finished (Ok r))
      | Throw e => (g, Finished (Raise e))
      | GetRequest k => (g, Running ctx (k (request_ ctx)))
      | GetNow k => (g, Running ctx (k (now ctx)))
      | GetStart k => (g, Running ctx (k (START_TIME g)))
      | Emit level m a k => (emit level m a g, Running ctx k)
      end
  | Finished r => (g, Finished r)
  end.

Fixpoint set_nth {A : Type} (n : nat) (x : A) (l : list A) : list A :=
  match l, n with
  | [], _ => []
  | _ :: l', O => x :: l'
  | y :: l', S n' => y :: set_nth n' x l'
  end.

(** The threads take steps in the order of a schedule, which names the
    thread that steps next; any interleaving of the threads is some
    schedule. *)
Fixpoint run_schedule (g : globals) (pool : list thread)
         (schedule : list nat) : globals * list thread :=
  match schedule with
  | [] => (g, pool)
  | n :: rest =>
      match nth_error pool n with
      | Some th =>
          run_schedule (fst (thread_step g th))
                       (set_nth n (snd (thread_step g th)) pool) rest
      | None => run_schedule g pool rest
      end
  end.

(** The thread that handles a request, with its clock reading. *)
Definition handler_thread {E : Type} (app : flask E) (tr : Z * request)
  : thread :=
  Running {| request_ := snd tr; now := fst tr |} (wsgi_app app).

(** The answer of the [n]-th thread, once it has finished. *)
Definition answer (pool : list thread) (n : nat) : option (result response) :=
  match nth_error pool n with
  | Some (Finished r) => Some r
  | _ => None
  end.

(** What a thread answers when it runs on from the globals [g] with no
    other thread stepping. *)
Definition thread_result (g : globals) (th : thread) : result response :=
  match th with
  | Running ctx code => fst (code ctx g)
  | Finished r => r
  end.

Section ConcurrentInstances.
Context {codec : TextCodec} {static : StaticFolder}.

(** An instance handling some requests at once, under a schedule. *)
Definition serve_concurrently (i : instance) (g : globals)
           (rs : list (Z * request)) (schedule : list nat)
  : globals * list thread :=
  match i with
  | edge_security =>
      run_schedule g (map (handler_thread EdgeSecurity.app) rs) schedule
  | smart_router =>
      run_schedule g (map (handler_thread SmartRouter.app) rs) schedule
  end.

End ConcurrentInstances.

(* ------------------------------------------------------------------------- *)
(** ** Sample inputs *)

(** A process just started at time 0, logging at the default level. *)
Definition boot : globals :=
  {| START_TIME := 0; log_level := INFO; log_records := [] |}.

(** The same with LOG_LEVEL=debug. *)
Definition boot_debug : globals :=
  {| START_TIME := 0; log_level := DEBUG; log_records := [] |}.

(** A request as a test client sends it: no query string, and the given
    method, path, headers, body and peer address. *)
Definition sample (method path : string) (headers : list (string * string))
           (data : string) (peer : string) : request :=
  {| req_method := method;
     req_path := path;
     req_headers := headers;
     req_args := [];
     req_data := data;
     req_remote_addr := Some peer |}.

(** The same with a query string. *)
Definition sample_query (method path : string)
           (headers args : list (string * string)) (data : string)
           (peer : string) : request :=
  {| req_method := method;
     req_path := path;
     req_headers := headers;
     req_args := args;
     req_data := data;
     req_remote_addr := Some peer |}.

(** The two headers of a WebSocket handshake. *)
Definition upgrade_headers : list (string * string) :=
  [("Connection", "Upgrade"); ("Upgrade", "websocket")].

(** An application with the error handlers of the edge-security instance
    and one view, which fails. *)
Definition faulty_app : flask unit :=
  {| url_map := [route "/boom" None tt];
     view_functions :=
       fun _ => raise (PyError "ZeroDivisionError" "division by zero");
     error_handlers := EdgeSecurity.handlers;
     send_static_file := None |}.

(* ------------------------------------------------------------------------- *)
(** ** Properties of computations *)

(** A computation that reads neither the clock nor [START_TIME]. *)
Inductive timeless {A : Type} : M A -> Prop :=
| timeless_Ret (a : A) : timeless (Ret a)
| timeless_Throw (e : exception) : timeless (Throw e)
| timeless_GetRequest (k : request -> M A) :
    (forall req, timeless (k req)) -> timeless (GetRequest k)
| timeless_Emit (level : Z) (m : string) (a : log_arg) (k : M A) :
    timeless k -> timeless (Emit level m a k).

(* ------------------------------------------------------------------------- *)
(** ** What the rules of an application accept *)

(** The rules registered for a path, and the methods they take together. *)
Definition rules_on {E : Type} (m : list (rule E)) (path : string)
  : list (rule E) :=
  filter (fun ru => String.eqb (rule_path ru) path) m.

Definition allowed_methods {E : Type} (m : list (rule E)) (path : string)
  : list string :=
  flat_map rule_methods (rules_on m path).

Section Accepts.
Context {codec : TextCodec} {static : StaticFolder}.

(** Does some rule of the instance's own take this method on this path? *)
Definition accepts (i : instance) (method path : string) : bool :=
  match i with
  | edge_security =>
      mem method (allowed_methods (url_map EdgeSecurity.app) path)
  | smart_router =>
      mem method (allowed_methods (url_map SmartRouter.app) path)
  end.

(** Does matching lead the request to a view of the instance's own? *)
Definition reaches_view (i : instance) (websocket : bool)
           (method path : string) : bool :=
  match i with
  | edge_security =>
      match url_match EdgeSecurity.app websocket method path with
      | Ok (MatchedRule _) => true
      | _ => false
      end
  | smart_router =>
      match url_match SmartRouter.app websocket method path with
      | Ok (MatchedRule _) => true
      | _ => false
      end
  end.

End Accepts.

(** Does the path, as it is or with its slashes merged, lie under the rule
    for the static folder? *)
Definition under_static (path : string) : bool :=
  match static_match path, static_match (merge_slashes path) with
  | None, None => false
  | _, _ => true
  end.

(* ------------------------------------------------------------------------- *)
(** ** Facts about computations *)

Lemma run_bind {A B : Type} (c : M A) (k : A -> M B) (ctx : context)
      (g : globals) :
  bind c k ctx g
  = match c ctx g with
    | (Ok a, g') => k a ctx g'
    | (Raise e, g') => (Raise e, g')
    end.
Proof.
  revert g. induction c as [a|e|f IH|f IH|f IH|level m a c IH]; intros g;
    simpl; auto.
Qed.

Lemma run_try_except {A : Type} (c : M A) (h : exception -> M A)
      (ctx : context) (g : globals) :
  try_except c h ctx g
  = match c ctx g with
    | (Ok a, g') => (Ok a, g')
    | (Raise e, g') => h e ctx g'
    end.
Proof.
  revert g. induction c as [a|e|f IH|f IH|f IH|level m a c IH]; intros g;
    simpl; auto.
Qed.

Lemma try_except_Ok {A : Type} (c : M A) (h : exception -> M A)
      (ctx : context) (g : globals) (a : A) :
  fst (c ctx g) = Ok a -> try_except c h ctx g = c ctx g.
Proof.
  rewrite run_try_except. destruct (c ctx g) as [[a'|e] g']; simpl;
    [reflexivity | discriminate].
Qed.

Lemma emit_START_TIME (level : Z) (m : string) (a : log_arg) (g : globals) :
  START_TIME (emit level m a g) = START_TIME g.
Proof. unfold emit. destruct (Z.leb _ _); reflexivity. Qed.

Lemma emit_log_level (level : Z) (m : string) (a : log_arg) (g : globals) :
  log_level (emit level m a g) = log_level g.
Proof. unfold emit. destruct (Z.leb _ _); reflexivity. Qed.

(** No computation changes [START_TIME] or the log level. *)
Lemma run_START_TIME {A : Type} (c : M A) (ctx : context) (g : globals) :
  START_TIME (snd (c ctx g)) = START_TIME g /\
  log_level (snd (c ctx g)) = log_level g.
Proof.
  revert g. induction c as [a|e|f IH|f IH|f IH|level m a c IH]; intros g;
    simpl; auto.
  destruct (IH (emit level m a g)) as [Hs Hl].
  rewrite Hs, Hl, emit_START_TIME, emit_log_level. auto.
Qed.

(** What a computation returns does not depend on the log: it is the same
    from any globals with the same [START_TIME]. *)
Lemma run_log_blind {A : Type} (c : M A) (ctx : context) (g g' : globals) :
  START_TIME g' = START_TIME g -> fst (c ctx g') = fst (c ctx g).
Proof.
  revert g g'. induction c as [a|e|f IH|f IH|f IH|level m a c IH];
    intros g g' Hg; simpl; auto.
  - rewrite Hg. auto.
  - apply IH. rewrite !emit_START_TIME. exact Hg.
Qed.

Lemma timeless_run {A : Type} (c : M A) :
  timeless c ->
  forall ctx1 ctx2 g1 g2,
    request_ ctx1 = request_ ctx2 -> fst (c ctx1 g1) = fst (c ctx2 g2).
Proof.
  induction 1 as [a|e|k Hk IH|level m a k Hk IH];
    intros ctx1 ctx2 g1 g2 Hreq; simpl; auto.
  rewrite Hreq. apply IH. exact Hreq.
Qed.

Lemma timeless_bind {A B : Type} (c : M A) (k : A -> M B) :
  timeless c -> (forall a, timeless (k a)) -> timeless (bind c k).
Proof.
  intros Hc Hk. induction Hc; simpl; auto; constructor; auto.
Qed.

Lemma timeless_try_except {A : Type} (c : M A) (h : exception -> M A) :
  timeless c -> (forall e, timeless (h e)) -> timeless (try_except c h).
Proof.
  intros Hc Hh. induction Hc; simpl; auto; constructor; auto.
Qed.

(** Building the syntax tree of a view and checking it node by node. *)
Ltac check_view :=
  repeat (first [ progress simpl
                | constructor
                | intros ? ]).

(* ------------------------------------------------------------------------- *)
(** ** Facts about matching *)

Lemma mem_In (x : string) (l : list string) : mem x l = true <-> In x l.
Proof.
  unfold mem. rewrite existsb_exists. split.
  - intros (y & Hin & Heq). apply String.eqb_eq in Heq. now subst.
  - intros Hin. exists x. split; [exact Hin | apply String.eqb_refl].
Qed.

Section MatchFacts.
Context {E : Type}.
Variable app : flask E.

Lemma candidates_rule (path : string) (ms : list string) (ru : rule E) :
  In (ms, MatchedRule ru) (candidates app path) ->
  In ru (url_map app) /\ rule_path ru = path /\ ms = rule_methods ru.
Proof.
  unfold candidates. intros Hin. apply in_app_or in Hin.
  destruct Hin as [Hin|Hin].
  - apply in_map_iff in Hin. destruct Hin as (ru' & Heq & Hin).
    injection Heq as <- <-. apply filter_In in Hin.
    destruct Hin as [Hin Hp]. apply String.eqb_eq in Hp. auto.
  - destruct (send_static_file app); [|destruct Hin].
    destruct (static_match path); [|destruct Hin].
    destruct Hin as [Heq|[]]. discriminate.
Qed.

Lemma candidates_static (path : string) (ms : list string) (f : string) :
  In (ms, MatchedStatic f) (candidates app path) ->
  static_match path = Some f /\ ms = static_methods /\
  send_static_file app <> None.
Proof.
  unfold candidates. intros Hin. apply in_app_or in Hin.
  destruct Hin as [Hin|Hin].
  - apply in_map_iff in Hin. destruct Hin as (ru' & Heq & Hin). discriminate.
  - destruct (send_static_file app); [|destruct Hin].
    destruct (static_match path); [|destruct Hin].
    destruct Hin as [Heq|[]]. injection Heq as <- <-.
    repeat split; discriminate.
Qed.

Lemma candidates_nil (path : string) :
  ~ In path (map rule_path (url_map app)) ->
  static_match path = None ->
  candidates app path = [].
Proof.
  intros Hno Hstatic. unfold candidates. rewrite Hstatic.
  assert (Hnil : filter (fun ru => String.eqb (rule_path ru) path)
                        (url_map app) = []).
  { destruct (filter _ (url_map app)) as [|ru l] eqn:Hf; [reflexivity|].
    exfalso. apply Hno.
    assert (Hin : In ru (filter (fun ru => String.eqb (rule_path ru) path)
                                (url_map app)))
      by (rewrite Hf; left; reflexivity).
    apply filter_In in Hin. destruct Hin as [Hin Hp].
    apply String.eqb_eq in Hp. subst path. apply in_map. exact Hin. }
  rewrite Hnil. destruct (send_static_file app); reflexivity.
Qed.

(** A pass returns a rule that takes the method, and only for a request
    that is no WebSocket handshake. *)
Lemma match_pass_Some (cands : list (list string * matched E))
      (websocket : bool) (method : string) (s s' : seen)
      (target : matched E) :
  match_pass cands websocket method s = (Some target, s') ->
  websocket = false /\
  exists ms, In (ms, target) cands /\ mem method ms = true.
Proof.
  revert s. induction cands as [|[ms tgt] cands IH]; intros s; simpl;
    [discriminate|].
  destruct (mem method ms) eqn:Hmem; simpl.
  - destruct websocket.
    + intros H. destruct (IH _ H) as (Hws & _). discriminate.
    + intros H. injection H as <- <-. split; [reflexivity|].
      exists ms. auto.
  - intros H. destruct (IH _ H) as (Hws & ms' & Hin & Hm).
    split; [exact Hws|]. exists ms'. auto.
Qed.

Lemma url_match_rule (websocket : bool) (method path : string) (ru : rule E) :
  url_match app websocket method path = Ok (MatchedRule ru) ->
  websocket = false /\ In ru (url_map app) /\ rule_path ru = path /\
  mem method (rule_methods ru) = true.
Proof.
  unfold url_match.
  destruct (match_pass (candidates app path) _ _ _) as [[target|] s1] eqn:H1.
  - intros Heq. injection Heq as ->.
    destruct (match_pass_Some _ _ _ _ _ _ H1) as (Hws & ms & Hin & Hmem).
    apply candidates_rule in Hin. destruct Hin as (Hin & Hp & ->). auto.
  - destruct (match_pass (candidates app (merge_slashes path)) _ _ _)
      as [[target|] s2]; [discriminate|].
    destruct (have_match_for s2); [|discriminate].
    destruct (websocket_mismatch s2); discriminate.
Qed.

Lemma url_match_static (websocket : bool) (method path f : string) :
  url_match app websocket method path = Ok (MatchedStatic f) ->
  websocket = false /\ static_match path = Some f /\
  mem method static_methods = true /\ send_static_file app <> None.
Proof.
  unfold url_match.
  destruct (match_pass (candidates app path) _ _ _) as [[target|] s1] eqn:H1.
  - intros Heq. injection Heq as ->.
    destruct (match_pass_Some _ _ _ _ _ _ H1) as (Hws & ms & Hin & Hmem).
    apply candidates_static in Hin. destruct Hin as (Hs & -> & Hsome). auto.
  - destruct (match_pass (candidates app (merge_slashes path)) _ _ _)
      as [[target|] s2]; [discriminate|].
    destruct (have_match_for s2); [|discriminate].
    destruct (websocket_mismatch s2); discriminate.
Qed.

(** Matching raises one of four exceptions, all of them HTTP exceptions. *)
Lemma url_match_Raise (websocket : bool) (method path : string)
      (e : exception) :
  url_match app websocket method path = Raise e ->
  e = NotFound \/ (exists valid, e = MethodNotAllowed valid) \/
  e = BadRequest \/ e = RequestRedirect (merge_slashes path).
Proof.
  unfold url_match.
  destruct (match_pass (candidates app path) _ _ _) as [[target|] s1];
    [discriminate|].
  destruct (match_pass (candidates app (merge_slashes path)) _ _ _)
    as [[target|] s2].
  - intros H. injection H as <-. auto.
  - destruct (have_match_for s2).
    + destruct (websocket_mismatch s2); intros H; injection H as <-; auto.
    + intros H. injection H as <-. eauto.
Qed.

(** A path no rule matches, with its slashes merged or not, is not found. *)
Lemma url_match_NotFound (websocket : bool) (method path : string) :
  candidates app path = [] ->
  candidates app (merge_slashes path) = [] ->
  url_match app websocket method path = Raise NotFound.
Proof.
  intros H1 H2. unfold url_match. rewrite H1, H2. reflexivity.
Qed.

(** Request handling, by the outcome of matching. *)
Lemma wsgi_app_unfold (ctx : context) (g : globals) :
  wsgi_app app ctx g
  = match url_match app (websocket_upgrade (req_headers (request_ ctx)))
                    (req_method (request_ ctx))
                    (req_path (request_ ctx)) with
    | Ok target =>
        if String.eqb (req_method (request_ ctx)) "OPTIONS"
        then (Ok options_response, g)
        else try_except
               (try_except
                  match target with
                  | MatchedRule ru => view_functions app (rule_endpoint ru)
                  | MatchedStatic filename =>
                      match send_static_file app with
                      | Some view => view filename
                      | None => raise NotFound
                      end
                  end
                  (handle_user_exception app))
               (handle_exception app) ctx g
    | Raise e =>
        try_except (handle_user_exception app e) (handle_exception app) ctx g
    end.
Proof.
  unfold wsgi_app, full_dispatch_request, dispatch_request. simpl.
  destruct (url_match _ _ _ _) as [target|e]; [|reflexivity].
  destruct (String.eqb _ _); reflexivity.
Qed.

End MatchFacts.

(* ------------------------------------------------------------------------- *)
(** ** Header lookup and dictionaries *)

Lemma headers_find_None (name : string) (hs : list (string * string)) :
  headers_find name hs = None <->
  forall k v, In (k, v) hs -> header_eqb k name = false.
Proof.
  induction hs as [|[k0 v0] hs IH]; simpl.
  - split; [intros _ k v [] | reflexivity].
  - destruct (header_eqb k0 name) eqn:Hk0.
    + split; [discriminate|]. intros H.
      rewrite (H k0 v0 (or_introl eq_refl)) in Hk0. discriminate.
    + rewrite IH. split.
      * intros H k v [Heq|Hin]; [congruence | eauto].
      * intros H k v Hin. apply (H k v). right. exact Hin.
Qed.

Lemma headers_find_Some (name v : string) (hs : list (string * string)) :
  headers_find name hs = Some v ->
  exists k, In (k, v) hs /\ header_eqb k name = true.
Proof.
  induction hs as [|[k0 v0] hs IH]; simpl; [discriminate|].
  destruct (header_eqb k0 name) eqn:Hk0.
  - intros Heq. injection Heq as ->. exists k0. auto.
  - intros Hfind. destruct (IH Hfind) as (k & Hin & Hk). exists k. auto.
Qed.

Lemma header_eqb_refl (k : string) : header_eqb k k = true.
Proof. apply String.eqb_refl. Qed.

Section DictFacts.
Context {V : Type}.

Lemma lookup_dict_set (k k0 : string) (v : V) (d : list (string * V)) :
  lookup k0 (dict_set k v d)
  = if String.eqb k k0 then Some v else lookup k0 d.
Proof.
  induction d as [|[k' v'] d IH]; simpl.
  - reflexivity.
  - destruct (String.eqb_spec k' k) as [->|Hne]; simpl.
    + destruct (String.eqb k k0); reflexivity.
    + rewrite IH.
      destruct (String.eqb_spec k' k0) as [->|Hne0]; [|reflexivity].
      apply String.eqb_neq in Hne. rewrite String.eqb_sym in Hne.
      rewrite Hne. reflexivity.
Qed.

Lemma lookup_app (k : string) (d1 d2 : list (string * V)) :
  lookup k (d1 ++ d2)
  = match lookup k d1 with
    | Some v => Some v
    | None => lookup k d2
    end.
Proof.
  induction d1 as [|[k' v'] d1 IH]; simpl; [reflexivity|].
  destruct (String.eqb k' k); [reflexivity | exact IH].
Qed.

Lemma lookup_None_keys (k : string) (d : list (string * V)) :
  lookup k d = None <-> ~ In k (keys d).
Proof.
  induction d as [|[k' v'] d IH]; simpl; [tauto|].
  destruct (String.eqb_spec k' k) as [->|Hne].
  - split; [discriminate | intros H; exfalso; apply H; auto].
  - rewrite IH. tauto.
Qed.

Lemma dict_set_absent (k : string) (v : V) (d : list (string * V)) :
  ~ In k (keys d) -> dict_set k v d = (d ++ [(k, v)])%list.
Proof.
  induction d as [|[k' v'] d IH]; simpl; [reflexivity|].
  intros Hno.
  destruct (String.eqb_spec k' k) as [->|Hne]; [exfalso; auto|].
  rewrite IH; [reflexivity | tauto].
Qed.

End DictFacts.

Lemma lookup_of_str_dict (k : string) (d : list (string * string)) :
  field k (of_str_dict d) = option_map JStr (lookup k d).
Proof.
  unfold of_str_dict. simpl.
  induction d as [|[k' v'] d IH]; simpl; [reflexivity|].
  destruct (String.eqb k' k); [reflexivity | exact IH].
Qed.

(** [dict(request.args)] gives every key its first value and is the list of
    pairs itself when the keys are distinct. *)
Lemma args_dict_fold (k : string) (l d : list (string * string)) :
  lookup k (fold_left
              (fun d kv =>
                 match lookup (fst kv) d with
                 | Some _ => d
                 | None => (d ++ [kv])%list
                 end) l d)
  = match lookup k d with
    | Some v => Some v
    | None => lookup k l
    end.
Proof.
  revert d. induction l as [|[k' v'] l IH]; intros d; simpl.
  - destruct (lookup k d); reflexivity.
  - rewrite IH. destruct (lookup k' d) eqn:Hk'.
    + destruct (lookup k d) eqn:Hk; [reflexivity|].
      destruct (String.eqb_spec k' k) as [->|Hne]; [congruence | reflexivity].
    + rewrite lookup_app. simpl.
      destruct (lookup k d); [reflexivity|].
      destruct (String.eqb k' k); reflexivity.
Qed.

Lemma args_dict_lookup (k : string) (args : list (string * string)) :
  lookup k (args_dict args) = lookup k args.
Proof. unfold args_dict. rewrite args_dict_fold. reflexivity. Qed.

Lemma args_dict_distinct_fold (l d : list (string * string)) :
  NoDup (keys (d ++ l)) ->
  fold_left
    (fun d kv =>
       match lookup (fst kv) d with
       | Some _ => d
       | None => (d ++ [kv])%list
       end) l d
  = (d ++ l)%list.
Proof.
  revert d. induction l as [|[k v] l IH]; intros d Hd; simpl.
  - rewrite app_nil_r. reflexivity.
  - assert (Hno : lookup k d = None).
    { apply lookup_None_keys. unfold keys in *. rewrite map_app in Hd.
      simpl in Hd. apply NoDup_remove_2 in Hd. intros Hin. apply Hd.
      apply in_or_app. left. exact Hin. }
    rewrite Hno.
    rewrite IH; rewrite <- app_assoc; simpl; [reflexivity | exact Hd].
Qed.

Lemma args_dict_distinct (args : list (string * string)) :
  NoDup (keys args) -> args_dict args = args.
Proof. intros Hd. apply (args_dict_distinct_fold args []). exact Hd. Qed.

(** [dict(request.headers)] gives every name the request has the first value
    of that name, and is the list of headers itself when the names are
    distinct without regard to case. *)
Lemma headers_dict_fold (hs : list (string * string)) (k : string)
      (ks : list string) (d : list (string * string)) :
  lookup k (fold_left
              (fun d k =>
                 match headers_find k hs with
                 | Some v => dict_set k v d
                 | None => d
                 end) ks d)
  = if mem k ks
    then match headers_find k hs with
         | Some v => Some v
         | None => lookup k d
         end
    else lookup k d.
Proof.
  revert d. induction ks as [|k' ks IH]; intros d; simpl; [reflexivity|].
  rewrite IH. rewrite (String.eqb_sym k k').
  destruct (String.eqb_spec k' k) as [->|Hne]; simpl.
  - destruct (headers_find k hs) as [v|] eqn:Hf.
    + rewrite lookup_dict_set, String.eqb_refl.
      destruct (mem k ks); reflexivity.
    + destruct (mem k ks); reflexivity.
  - destruct (headers_find k' hs) as [v'|].
    + rewrite lookup_dict_set.
      apply String.eqb_neq in Hne. rewrite Hne. reflexivity.
    + reflexivity.
Qed.

Lemma headers_dict_lookup (k : string) (hs : list (string * string)) :
  lookup k (headers_dict hs)
  = if mem k (keys hs) then headers_find k hs else None.
Proof.
  unfold headers_dict. rewrite headers_dict_fold. simpl.
  destruct (mem k (keys hs)); [|reflexivity].
  destruct (headers_find k hs); reflexivity.
Qed.

Lemma lower_keys_app_head (pre suf : list (string * string)) (k v : string) :
  NoDup (map lower (keys (pre ++ (k, v) :: suf))) ->
  headers_find k (pre ++ (k, v) :: suf) = Some v /\ ~ In k (keys pre).
Proof.
  intros Hd. unfold keys in Hd. rewrite map_app, map_app in Hd. simpl in Hd.
  apply NoDup_remove_2 in Hd.
  assert (Hpre : forall k' v', In (k', v') pre -> header_eqb k' k = false).
  { intros k' v' Hin. unfold header_eqb. apply String.eqb_neq. intros Heq.
    apply Hd. apply in_or_app. left. rewrite <- Heq.
    apply in_map. apply (in_map fst) in Hin. exact Hin. }
  split.
  - clear Hd. induction pre as [|[k0 v0] pre IH]; simpl.
    + rewrite header_eqb_refl. reflexivity.
    + rewrite (Hpre k0 v0 (or_introl eq_refl)). apply IH.
      intros k' v' Hin. apply (Hpre k' v'). right. exact Hin.
  - intros Hin. apply in_map_iff in Hin. destruct Hin as ([k' v'] & Hk & Hin).
    simpl in Hk. subst k'. specialize (Hpre _ _ Hin).
    rewrite header_eqb_refl in Hpre. discriminate.
Qed.

Lemma headers_dict_distinct_fold (pre suf : list (string * string)) :
  NoDup (map lower (keys (pre ++ suf))) ->
  fold_left
    (fun d k =>
       match headers_find k (pre ++ suf) with
       | Some v => dict_set k v d
       | None => d
       end) (keys suf) pre
  = (pre ++ suf)%list.
Proof.
  revert pre. induction suf as [|[k v] suf IH]; intros pre Hd; simpl.
  - rewrite app_nil_r. reflexivity.
  - destruct (lower_keys_app_head pre suf k v Hd) as [Hfind Hno].
    rewrite Hfind, (dict_set_absent k v pre Hno).
    replace (pre ++ (k, v) :: suf)%list with ((pre ++ [(k, v)]) ++ suf)%list
      by (rewrite <- app_assoc; reflexivity).
    apply IH. rewrite <- app_assoc. exact Hd.
Qed.

Lemma headers_dict_distinct (hs : list (string * string)) :
  NoDup (map lower (keys hs)) -> headers_dict hs = hs.
Proof. intros Hd. apply (headers_dict_distinct_fold [] hs). exact Hd. Qed.

(* ------------------------------------------------------------------------- *)
(** ** Facts about threads *)

Lemma thread_step_result (g0 g : globals) (th : thread) :
  START_TIME g = START_TIME g0 ->
  START_TIME (fst (thread_step g th)) = START_TIME g0 /\
  thread_result g0 (snd (thread_step g th)) = thread_result g0 th.
Proof.
  intros Hg. destruct th as [ctx code|r]; [|auto].
  destruct code as [a|e|k|k|k|level m a k]; simpl; auto.
  - rewrite Hg. auto.
  - rewrite emit_START_TIME. split; [exact Hg|].
    symmetry. apply run_log_blind. apply emit_START_TIME.
Qed.

Lemma map_set_nth {A B : Type} (f : A -> B) (n : nat) (x y : A) (l : list A) :
  nth_error l n = Some y -> f x = f y -> map f (set_nth n x l) = map f l.
Proof.
  revert n. induction l as [|z l IH]; intros n; [destruct n; discriminate|].
  destruct n as [|n]; simpl.
  - intros Hy Hf. injection Hy as ->. rewrite Hf. reflexivity.
  - intros Hy Hf. rewrite (IH n Hy Hf). reflexivity.
Qed.

(** Whatever the schedule, no thread's answer changes: it stays what the
    thread would answer running alone from the first globals. *)
Lemma run_schedule_result (g0 : globals) (schedule : list nat) :
  forall g pool,
    START_TIME g = START_TIME g0 ->
    START_TIME (fst (run_schedule g pool schedule)) = START_TIME g0 /\
    map (thread_result g0) (snd (run_schedule g pool schedule))
    = map (thread_result g0) pool.
Proof.
  induction schedule as [|n rest IH]; intros g pool Hg; simpl; [auto|].
  destruct (nth_error pool n) as [th|] eqn:Hn; [|apply IH; exact Hg].
  destruct (thread_step_result g0 g th Hg) as [Hg' Hres].
  destruct (IH _ (set_nth n (snd (thread_step g th)) pool) Hg') as [Hs Hm].
  split; [exact Hs|].
  rewrite Hm. apply (map_set_nth _ _ _ th); assumption.
Qed.

Lemma answer_alone {E : Type} (app : flask E) (g : globals)
      (rs : list (Z * request)) (schedule : list nat) (n : nat)
      (t : Z) (req : request) (r : result response) :
  nth_error rs n = Some (t, req) ->
  answer (snd (run_schedule g (map (handler_thread app) rs) schedule)) n
  = Some r ->
  r = fst (serve app g t req).
Proof.
  intros Hn Hans.
  destruct (run_schedule_result g schedule g (map (handler_thread app) rs)
              eq_refl) as [_ Hmap].
  unfold answer in Hans.
  destruct (nth_error (snd (run_schedule g _ schedule)) n) as [th|] eqn:Hth;
    [|discriminate].
  destruct th as [ctx code|r']; [discriminate|].
  injection Hans as ->.
  apply (map_nth_error (thread_result g)) in Hth. rewrite Hmap in Hth.
  rewrite (map_nth_error (thread_result g) _ _
             (map_nth_error (handler_thread app) _ _ Hn)) in Hth.
  injection Hth as Hth. symmetry. exact Hth.
Qed.

(* ------------------------------------------------------------------------- *)
(** ** Facts about the two instances *)

Section InstanceFacts.
Context {codec : TextCodec} {static : StaticFolder}.

Lemma static_view_timeless (filename : string) :
  timeless (flask_send_static_file filename).
Proof.
  unfold flask_send_static_file. simpl. constructor. intros req.
  destruct (static_file filename req); constructor.
Qed.

Lemma edge_views_timeless (e : EdgeSecurity.endpoint) :
  e <> EdgeSecurity.ep_health -> timeless (EdgeSecurity.views e).
Proof. destruct e; intros Hne; try congruence; check_view. Qed.

Lemma router_views_timeless (e : SmartRouter.endpoint) :
  e <> SmartRouter.ep_health -> timeless (SmartRouter.views e).
Proof. destruct e; intros Hne; try congruence; check_view. Qed.

Lemma edge_handlers_timeless code h :
  EdgeSecurity.handlers code = Some h -> forall e, timeless (h e).
Proof.
  unfold EdgeSecurity.handlers.
  destruct (Z.eqb code 404); [|destruct (Z.eqb code 500)];
    intros Hh; inversion Hh; subst; intros e; check_view.
Qed.

Lemma router_handlers_timeless code h :
  SmartRouter.handlers code = Some h -> forall e, timeless (h e).
Proof.
  unfold SmartRouter.handlers.
  destruct (Z.eqb code 404); [|destruct (Z.eqb code 500)];
    intros Hh; inversion Hh; subst; intros e; check_view.
Qed.

(** Only the rule for /health leads to the [health] view. *)
Lemma edge_health_rule (ru : rule EdgeSecurity.endpoint) :
  In ru (url_map EdgeSecurity.app) ->
  rule_path ru <> "/health" -> rule_endpoint ru <> EdgeSecurity.ep_health.
Proof.
  simpl. intros Hin Hpath.
  repeat (destruct Hin as [<-|Hin]; [simpl in *; congruence|]).
  destruct Hin.
Qed.

Lemma router_health_rule (ru : rule SmartRouter.endpoint) :
  In ru (url_map SmartRouter.app) ->
  rule_path ru <> "/health" -> rule_endpoint ru <> SmartRouter.ep_health.
Proof.
  simpl. intros Hin Hpath.
  repeat (destruct Hin as [<-|Hin]; [simpl in *; congruence|]).
  destruct Hin.
Qed.

End InstanceFacts.

(** When the view the request is routed to, if any, reads no time, and the
    error handlers read none, the response of the application is the same at
    any time and from any globals. *)
Lemma wsgi_app_timeless {E : Type} (app : flask E) (req : request) :
  (forall websocket ru,
      url_match app websocket (req_method req) (req_path req)
      = Ok (MatchedRule ru) ->
      timeless (view_functions app (rule_endpoint ru))) ->
  (forall view filename,
      send_static_file app = Some view -> timeless (view filename)) ->
  (forall code h, error_handlers app code = Some h ->
                  forall e, timeless (h e)) ->
  forall t1 t2 g1 g2,
    fst (wsgi_app app {| request_ := req; now := t1 |} g1)
    = fst (wsgi_app app {| request_ := req; now := t2 |} g2).
Proof.
  intros Hview Hstatic Hhandlers t1 t2 g1 g2.
  assert (Huser : forall e, timeless (handle_user_exception app e)).
  { intros e. unfold handle_user_exception.
    destruct e; simpl; try constructor;
      match goal with
      | |- context [error_handlers app ?c] =>
          destruct (error_handlers app c) as [h|] eqn:Hh;
          [eapply Hhandlers; eassumption | constructor]
      end. }
  assert (Hexc : forall e, timeless (handle_exception app e)).
  { intros e. unfold handle_exception, log_exception. simpl.
    constructor. intros r. simpl. constructor.
    destruct (error_handlers app 500) as [h|] eqn:Hh;
      [eapply Hhandlers; eassumption | constructor]. }
  rewrite !wsgi_app_unfold. cbn [request_].
  destruct (url_match _ _ _ _) as [target|e] eqn:Hm.
  - destruct (String.eqb _ _); [reflexivity|].
    apply timeless_run; [|reflexivity].
    apply timeless_try_except; [apply timeless_try_except|]; auto.
    destruct target as [ru|filename].
    + eapply Hview. exact Hm.
    + destruct (send_static_file app) as [view|] eqn:Hs;
        [eapply Hstatic; reflexivity | constructor].
  - apply timeless_run; [|reflexivity].
    apply timeless_try_except; auto.
Qed.

Section InstanceServing.
Context {codec : TextCodec} {static : StaticFolder}.

(** Serving never changes [START_TIME], and what is served does not depend
    on the log. *)
Lemma serve_instance_log_blind (i : instance) (g : globals) (t : Z)
      (req : request) :
  START_TIME (snd (serve_instance i g t req)) = START_TIME g /\
  forall g', START_TIME g' = START_TIME g ->
             fst (serve_instance i g' t req) = fst (serve_instance i g t req).
Proof.
  destruct i; unfold serve_instance, serve; split;
    try apply run_START_TIME; intros g' Hg'; apply run_log_blind; exact Hg'.
Qed.

Lemma serve_instance_all_START_TIME (i : instance) (rs : list (Z * request)) :
  forall g, START_TIME (serve_instance_all i g rs) = START_TIME g.
Proof.
  induction rs as [|[t req] rs IH]; intros g; simpl; [reflexivity|].
  rewrite IH. apply serve_instance_log_blind.
Qed.

(** Away from /health the response is a function of the request alone. *)
Lemma serve_instance_request_only (i : instance) (req : request) :
  req_path req <> "/health" ->
  forall t1 t2 g1 g2,
    fst (serve_instance i g1 t1 req) = fst (serve_instance i g2 t2 req).
Proof.
  intros Hpath t1 t2 g1 g2.
  destruct i; unfold serve_instance, serve.
  - apply (wsgi_app_timeless EdgeSecurity.app).
    + intros ws ru Hm. apply url_match_rule in Hm.
      destruct Hm as (_ & Hin & Hp & _).
      apply edge_views_timeless, edge_health_rule; congruence.
    + intros view filename Hs. injection Hs as <-.
      apply static_view_timeless.
    + apply edge_handlers_timeless.
  - apply (wsgi_app_timeless SmartRouter.app).
    + intros ws ru Hm. apply url_match_rule in Hm.
      destruct Hm as (_ & Hin & Hp & _).
      apply router_views_timeless, router_health_rule; congruence.
    + intros view filename Hs. injection Hs as <-.
      apply static_view_timeless.
    + apply router_handlers_timeless.
Qed.

(** An answer given among other threads is the answer given alone. *)
Lemma serve_concurrently_alone (i : instance) (g : globals)
      (rs : list (Z * request)) (schedule : list nat) (n : nat)
      (t : Z) (req : request) (r : result response) :
  nth_error rs n = Some (t, req) ->
  answer (snd (serve_concurrently i g rs schedule)) n = Some r ->
  r = fst (serve_instance i g t req).
Proof.
  destruct i; unfold serve_concurrently, serve_instance; apply answer_alone.
Qed.

End InstanceServing.

(* ------------------------------------------------------------------------- *)
(** ** The properties *)

Ltac concrete_request req :=
  let method := fresh "method" in
  let path := fresh "path" in
  let headers := fresh "headers" in
  let args := fresh "args" in
  let data := fresh "data" in
  let remote := fresh "remote" in
  destruct req as [method path headers args data remote];
  simpl req_method in *; simpl req_path in *; simpl req_headers in *;
  simpl req_args in *; simpl req_data in *; subst.

(** Unfolding the handling of a request down to the outcome of matching. *)
Ltac serve_route :=
  unfold serve_instance, serve; rewrite ?wsgi_app_unfold;
  cbn [request_ req_headers req_method req_path].

(** C1, as amended.  A GET request to one of the three version paths of the
    smart router that is no WebSocket handshake is answered with a
    [routing_info] object whose [routed_by] is the value of the request's
    X-Routed-By header, or "direct" when the request has none, and whose
    [route_reason] is the value of its X-Route-Reason header, or "none" when
    it has none. *)
Theorem version_routing_info_echo {codec : TextCodec} {static : StaticFolder}
        (g : globals) (t : Z) (req : request) :
  req_method req = "GET" ->
  req_path req = "/v2/api/version" \/
  req_path req = "/v1/api/version" \/
  req_path req = "/api/version" ->
  websocket_upgrade (req_headers req) = false ->
  exists j,
    json_of (fst (serve_instance smart_router g t req)) = Some j /\
    field2 "routing_info" "routed_by" j
    = Some (JStr (match headers_find "X-Routed-By" (req_headers req) with
                  | Some r => r
                  | None => "direct"
                  end)) /\
    field2 "routing_info" "route_reason" j
    = Some (JStr (match headers_find "X-Route-Reason" (req_headers req) with
                  | Some s => s
                  | None => "none"
                  end)).
Proof.
  intros Hmethod Hpath Hws.
  concrete_request req.
  destruct Hpath as [ -> | [ -> | -> ] ];
    (eexists; split;
     [serve_route; rewrite Hws; reflexivity | split; reflexivity]).
Qed.

Lemma version_routing_info_echo_witness :
  exists j,
    json_of (fst (serve_instance smart_router boot 0
                    (sample "GET" "/v2/api/version"
                            [("X-Routed-By", "filter-x");
                             ("X-Route-Reason", "beta-criteria")]
                            "" "10.0.0.1"))) = Some j /\
    field2 "routing_info" "routed_by" j = Some (JStr "filter-x") /\
    field2 "routing_info" "route_reason" j = Some (JStr "beta-criteria").
Proof.
  exact (version_routing_info_echo (codec := ascii_codec)
           (static := no_static_files) boot 0
           (sample "GET" "/v2/api/version"
                   [("X-Routed-By", "filter-x");
                    ("X-Route-Reason", "beta-criteria")]
                   "" "10.0.0.1")
           eq_refl (or_introl eq_refl) eq_refl).
Defined.

(** C1 as stated fails: a GET request to /v2/api/version that carries
    X-Routed-By: filter-x and the two headers of a WebSocket handshake is
    answered with the framework's page for 400, which has no
    [routing_info]. *)
Lemma version_upgrade_request_is_400 :
  let req := sample "GET" "/v2/api/version"
                    (("X-Routed-By", "filter-x") :: upgrade_headers)
                    "" "10.0.0.1" in
  req_method req = "GET" /\
  headers_find "X-Routed-By" (req_headers req) = Some "filter-x" /\
  fst (serve_instance (codec := ascii_codec) (static := no_static_files)
         smart_router boot 0 req)
  = Ok (default_response 400) /\
  json_of (fst (serve_instance (codec := ascii_codec)
                  (static := no_static_files) smart_router boot 0 req))
  = None.
Proof. repeat split; reflexivity. Qed.

(** C4.  /api/version and /v1/api/version are two rules for one view, and
    GET requests to the two paths that carry the same headers are answered
    alike; unless they are WebSocket handshakes, with the same JSON body. *)
Theorem version_alias_same_body {codec : TextCodec} {static : StaticFolder}
        (g1 g2 : globals) (t1 t2 : Z) (r1 r2 : request) :
  req_method r1 = "GET" -> req_path r1 = "/api/version" ->
  req_method r2 = "GET" -> req_path r2 = "/v1/api/version" ->
  req_headers r1 = req_headers r2 ->
  (exists ru1 ru2,
      url_match SmartRouter.app false "GET" "/api/version"
      = Ok (MatchedRule ru1) /\
      url_match SmartRouter.app false "GET" "/v1/api/version"
      = Ok (MatchedRule ru2) /\
      rule_endpoint ru1 = SmartRouter.ep_get_version_v1 /\
      rule_endpoint ru2 = SmartRouter.ep_get_version_v1) /\
  fst (serve_instance smart_router g1 t1 r1)
  = fst (serve_instance smart_router g2 t2 r2) /\
  (websocket_upgrade (req_headers r1) = false ->
   exists j,
     json_of (fst (serve_instance smart_router g1 t1 r1)) = Some j /\
     json_of (fst (serve_instance smart_router g2 t2 r2)) = Some j).
Proof.
  intros Hm1 Hp1 Hm2 Hp2 Hh.
  concrete_request r1. concrete_request r2.
  split; [|split].
  - do 2 eexists. repeat split; reflexivity.
  - serve_route.
    match goal with
    | |- context [websocket_upgrade ?h] => destruct (websocket_upgrade h)
    end; reflexivity.
  - intros Hws. eexists.
    split; serve_route; rewrite Hws; reflexivity.
Qed.

Lemma version_alias_same_body_witness :
  exists j,
    json_of (fst (serve_instance smart_router boot 10
                    (sample "GET" "/api/version"
                            [("X-Routed-By", "filter-x")] "" "10.0.0.1")))
    = Some j /\
    json_of (fst (serve_instance smart_router boot 20
                    (sample "GET" "/v1/api/version"
                            [("X-Routed-By", "filter-x")] "" "10.0.0.2")))
    = Some j.
Proof.
  exact (proj2 (proj2 (version_alias_same_body (codec := ascii_codec)
                         (static := no_static_files) boot boot 10 20
                         (sample "GET" "/api/version"
                                 [("X-Routed-By", "filter-x")] "" "10.0.0.1")
                         (sample "GET" "/v1/api/version"
                                 [("X-Routed-By", "filter-x")] "" "10.0.0.2")
                         eq_refl eq_refl eq_refl eq_refl eq_refl))
           eq_refl).
Defined.

(** C7, as amended.  A GET request to /api/users of the edge-security
    instance that is no WebSocket handshake is answered with an object whose
    [users] array has exactly 3 elements, each with the fields name, email,
    ssn and card, and whose [total] is the length of that array, 3. *)
Theorem get_users_three_records {codec : TextCodec} {static : StaticFolder}
        (g : globals) (t : Z) (req : request) :
  req_method req = "GET" ->
  req_path req = "/api/users" ->
  websocket_upgrade (req_headers req) = false ->
  exists j users,
    json_of (fst (serve_instance edge_security g t req)) = Some j /\
    field "users" j = Some (JArr users) /\
    length users = 3%nat /\
    Forall (fun u => field "name" u <> None /\ field "email" u <> None /\
                     field "ssn" u <> None /\ field "card" u <> None) users /\
    field "total" j = Some (JInt (Z.of_nat (length users))) /\
    field "total" j = Some (JInt 3).
Proof.
  intros Hmethod Hpath Hws.
  concrete_request req.
  do 2 eexists.
  split; [serve_route; rewrite Hws; reflexivity|].
  split; [reflexivity|].
  split; [reflexivity|].
  split; [|split; reflexivity].
  repeat constructor; discriminate.
Qed.

Lemma get_users_three_records_witness :
  exists j users,
    json_of (fst (serve_instance edge_security boot 0
                    (sample "GET" "/api/users" [] "" "10.0.0.1"))) = Some j /\
    field "users" j = Some (JArr users) /\
    length users = 3%nat /\
    Forall (fun u => field "name" u <> None /\ field "email" u <> None /\
                     field "ssn" u <> None /\ field "card" u <> None) users /\
    field "total" j = Some (JInt (Z.of_nat (length users))) /\
    field "total" j = Some (JInt 3).
Proof.
  exact (get_users_three_records (codec := ascii_codec)
           (static := no_static_files) boot 0
           (sample "GET" "/api/users" [] "" "10.0.0.1")
           eq_refl eq_refl eq_refl).
Defined.

(** C7 as stated fails: a GET request to /api/users with the two headers of
    a WebSocket handshake is answered with the framework's page for 400,
    which has no [users] array. *)
Lemma get_users_upgrade_request_is_400 :
  fst (serve_instance (codec := ascii_codec) (static := no_static_files)
         edge_security boot 0
         (sample "GET" "/api/users" upgrade_headers "" "10.0.0.1"))
  = Ok (default_response 400) /\
  json_of (fst (serve_instance (codec := ascii_codec)
                  (static := no_static_files) edge_security boot 0
                  (sample "GET" "/api/users" upgrade_headers "" "10.0.0.1")))
  = None.
Proof. split; reflexivity. Qed.

(** C8.  A GET request to /api/user-clean of the edge-security instance is
    never answered with a JSON tree that has, at any depth, a field named
    ssn, card_number or payment; and it is answered with a JSON tree unless
    it is a WebSocket handshake. *)
Theorem get_user_clean_no_pii_fields {codec : TextCodec}
        {static : StaticFolder} (g : globals) (t : Z) (req : request) :
  req_method req = "GET" ->
  req_path req = "/api/user-clean" ->
  (forall j,
      json_of (fst (serve_instance edge_security g t req)) = Some j ->
      has_field "ssn" j = false /\
      has_field "card_number" j = false /\
      has_field "payment" j = false) /\
  (websocket_upgrade (req_headers req) = false ->
   exists j, json_of (fst (serve_instance edge_security g t req)) = Some j).
Proof.
  intros Hmethod Hpath.
  concrete_request req.
  split.
  - intros j. serve_route.
    destruct (websocket_upgrade headers); simpl; [discriminate|].
    intros Hj. injection Hj as <-. repeat split; reflexivity.
  - intros Hws. eexists. serve_route. rewrite Hws. reflexivity.
Qed.

Lemma get_user_clean_no_pii_fields_witness :
  exists j,
    json_of (fst (serve_instance edge_security boot 0
                    (sample "GET" "/api/user-clean" [] "" "10.0.0.1")))
    = Some j /\
    has_field "ssn" j = false /\
    has_field "card_number" j = false /\
    has_field "payment" j = false.
Proof.
  destruct (get_user_clean_no_pii_fields (codec := ascii_codec)
              (static := no_static_files) boot 0
              (sample "GET" "/api/user-clean" [] "" "10.0.0.1")
              eq_refl eq_refl) as [Hno Hjson].
  destruct (Hjson eq_refl) as [j Hj].
  exists j. split; [exact Hj | exact (Hno j Hj)].
Defined.

(** C9, as amended.  A POST request to /debug/echo of the smart router that
    is no WebSocket handshake is answered with a mapping whose [body] is the
    raw request body decoded as text (so "hello" for the body hello), whose
    [method] is "POST" and whose [path] is the request's path.  Its [headers]
    gives every header name of the request the first value of that name, and
    is the request's headers, in order, when their names are distinct. *)
Theorem debug_echo_post_body {codec : TextCodec} {static : StaticFolder}
        (g : globals) (t : Z) (req : request) :
  req_method req = "POST" ->
  req_path req = "/debug/echo" ->
  websocket_upgrade (req_headers req) = false ->
  exists j hs,
    json_of (fst (serve_instance smart_router g t req)) = Some j /\
    field "body" j = Some (JStr (decode_text (req_data req))) /\
    (req_data req = "hello" -> field "body" j = Some (JStr "hello")) /\
    field "method" j = Some (JStr "POST") /\
    field "path" j = Some (JStr (req_path req)) /\
    field "headers" j = Some hs /\
    (forall k,
        field k hs
        = if mem k (keys (req_headers req))
          then option_map JStr (headers_find k (req_headers req))
          else None) /\
    (NoDup (map lower (keys (req_headers req))) ->
     hs = of_str_dict (req_headers req)).
Proof.
  intros Hmethod Hpath Hws.
  concrete_request req.
  exists (JObj [("method", JStr "POST");
                ("path", JStr "/debug/echo");
                ("headers", of_str_dict (headers_dict headers));
                ("args", of_str_dict (args_dict args));
                ("body", JStr (decode_text data))]),
         (of_str_dict (headers_dict headers)).
  split; [serve_route; rewrite Hws; reflexivity|].
  split; [reflexivity|].
  split; [intros ->; simpl; rewrite decode_text_ascii; reflexivity|].
  split; [reflexivity|].
  split; [reflexivity|].
  split; [reflexivity|].
  split.
  - intros k. rewrite lookup_of_str_dict, headers_dict_lookup.
    destruct (mem k (keys headers)); reflexivity.
  - intros Hd. rewrite (headers_dict_distinct headers Hd). reflexivity.
Qed.

Lemma debug_echo_post_body_witness :
  exists j,
    json_of (fst (serve_instance smart_router boot 0
                    (sample "POST" "/debug/echo"
                            [("Host", "backend");
                             ("Content-Type", "text/plain")]
                            "hello" "10.0.0.1"))) = Some j /\
    field "body" j = Some (JStr "hello") /\
    field "method" j = Some (JStr "POST") /\
    field "path" j = Some (JStr "/debug/echo") /\
    field "headers" j
    = Some (of_str_dict [("Host", "backend");
                         ("Content-Type", "text/plain")]).
Proof.
  destruct (debug_echo_post_body (codec := ascii_codec)
              (static := no_static_files) boot 0
              (sample "POST" "/debug/echo"
                      [("Host", "backend"); ("Content-Type", "text/plain")]
                      "hello" "10.0.0.1") eq_refl eq_refl eq_refl)
    as (j & hs & Hj & _ & Hhello & Hmethod & Hpath & Hhs & _ & Hdistinct).
  exists j. split; [exact Hj|]. split; [exact (Hhello eq_refl)|].
  split; [exact Hmethod|]. split; [exact Hpath|].
  rewrite Hhs. f_equal. apply Hdistinct.
  repeat constructor; simpl; intuition discriminate.
Defined.

(** C9 as stated fails: a POST request to /debug/echo with the body hello
    and the two headers of a WebSocket handshake is answered with the
    framework's page for 400, not with a mapping. *)
Lemma debug_echo_post_upgrade_is_400 :
  fst (serve_instance (codec := ascii_codec) (static := no_static_files)
         smart_router boot 0
         (sample "POST" "/debug/echo" upgrade_headers "hello" "10.0.0.1"))
  = Ok (default_response 400) /\
  json_of (fst (serve_instance (codec := ascii_codec)
                  (static := no_static_files) smart_router boot 0
                  (sample "POST" "/debug/echo" upgrade_headers "hello"
                          "10.0.0.1")))
  = None.
Proof. split; reflexivity. Qed.

(** C10, as amended.  A GET request to /debug/echo of the smart router that
    is no WebSocket handshake is answered with a mapping whose keys are
    exactly method, path, headers and args, without a body key; [args] gives
    every query parameter its first value and is the list of the query
    parameters when their names are distinct.  Whatever the request, a
    mapping from /debug/echo has a body key only when the request is a
    POST; and the args mapping is there for a POST as well. *)
Theorem debug_echo_keys {codec : TextCodec} {static : StaticFolder}
        (g : globals) (t : Z) (req : request) :
  req_path req = "/debug/echo" ->
  (req_method req = "GET" ->
   websocket_upgrade (req_headers req) = false ->
   exists d qs,
     json_of (fst (serve_instance smart_router g t req)) = Some (JObj d) /\
     keys d = ["method"; "path"; "headers"; "args"] /\
     lookup "body" d = None /\
     lookup "args" d = Some qs /\
     (forall k, field k qs = option_map JStr (lookup k (req_args req))) /\
     (NoDup (keys (req_args req)) -> qs = of_str_dict (req_args req))) /\
  (forall d,
     json_of (fst (serve_instance smart_router g t req)) = Some (JObj d) ->
     lookup "body" d <> None -> req_method req = "POST") /\
  (req_method req = "POST" ->
   websocket_upgrade (req_headers req) = false ->
   exists d qs,
     json_of (fst (serve_instance smart_router g t req)) = Some (JObj d) /\
     keys d = ["method"; "path"; "headers"; "args"; "body"] /\
     lookup "args" d = Some qs /\
     (forall k, field k qs = option_map JStr (lookup k (req_args req))) /\
     (NoDup (keys (req_args req)) -> qs = of_str_dict (req_args req))).
Proof.
  intros Hpath.
  concrete_request req.
  assert (Hargs : forall k,
             field k (of_str_dict (args_dict args))
             = option_map JStr (lookup k args)).
  { intros k. rewrite lookup_of_str_dict, args_dict_lookup. reflexivity. }
  assert (Hdistinct : NoDup (keys args) ->
                      of_str_dict (args_dict args) = of_str_dict args).
  { intros Hd. rewrite (args_dict_distinct args Hd). reflexivity. }
  split; [|split].
  - intros -> Hws.
    exists [("method", JStr "GET");
            ("path", JStr "/debug/echo");
            ("headers", of_str_dict (headers_dict headers));
            ("args", of_str_dict (args_dict args))],
           (of_str_dict (args_dict args)).
    split; [serve_route; rewrite Hws; reflexivity|].
    repeat split; try reflexivity; assumption.
  - intros d. serve_route.
    destruct (url_match _ _ _ _) as [[ru|filename]|e] eqn:Hm.
    + apply url_match_rule in Hm. destruct Hm as (_ & Hin & Hp & _).
      simpl in Hin.
      repeat (destruct Hin as [<-|Hin]; [try discriminate Hp|]);
        [|destruct Hin].
      destruct (String.eqb method "OPTIONS"); simpl; [discriminate|].
      destruct (String.eqb_spec method "POST") as [Hpost|Hpost]; [auto|].
      intros Hd. injection Hd as <-. simpl. congruence.
    + apply url_match_static in Hm. destruct Hm as (_ & Hs & _).
      discriminate Hs.
    + apply url_match_Raise in Hm.
      destruct Hm as [ -> | [ [valid ->] | [ -> | -> ] ] ]; simpl;
        try discriminate.
      intros Hd. injection Hd as <-. simpl. congruence.
  - intros -> Hws.
    exists [("method", JStr "POST");
            ("path", JStr "/debug/echo");
            ("headers", of_str_dict (headers_dict headers));
            ("args", of_str_dict (args_dict args));
            ("body", JStr (decode_text data))],
           (of_str_dict (args_dict args)).
    split; [serve_route; rewrite Hws; reflexivity|].
    repeat split; try reflexivity; assumption.
Qed.

Lemma debug_echo_keys_witness :
  exists d,
    json_of (fst (serve_instance smart_router boot 0
                    (sample_query "GET" "/debug/echo" [("Host", "backend")]
                                  [("user", "alice"); ("page", "2")]
                                  "" "10.0.0.1"))) = Some (JObj d) /\
    keys d = ["method"; "path"; "headers"; "args"] /\
    lookup "body" d = None /\
    lookup "args" d = Some (of_str_dict [("user", "alice"); ("page", "2")]).
Proof.
  destruct (proj1 (debug_echo_keys (codec := ascii_codec)
                     (static := no_static_files) boot 0
                     (sample_query "GET" "/debug/echo" [("Host", "backend")]
                                   [("user", "alice"); ("page", "2")]
                                   "" "10.0.0.1") eq_refl) eq_refl eq_refl)
    as (d & qs & Hd & Hkeys & Hbody & Hqs & _ & Hdistinct).
  exists d. split; [exact Hd|]. split; [exact Hkeys|].
  split; [exact Hbody|].
  rewrite Hqs. f_equal. apply Hdistinct.
  repeat constructor; simpl; intuition discriminate.
Defined.

(** C10 as stated fails: a GET request to /debug/echo with the two headers
    of a WebSocket handshake is answered with the framework's page for 400,
    not with a mapping of four keys. *)
Lemma debug_echo_get_upgrade_is_400 :
  fst (serve_instance (codec := ascii_codec) (static := no_static_files)
         smart_router boot 0
         (sample "GET" "/debug/echo" upgrade_headers "" "10.0.0.1"))
  = Ok (default_response 400) /\
  json_of (fst (serve_instance (codec := ascii_codec)
                  (static := no_static_files) smart_router boot 0
                  (sample "GET" "/debug/echo" upgrade_headers ""
                          "10.0.0.1")))
  = None.
Proof. split; reflexivity. Qed.

(** C3, as amended.  A GET request to /health of either instance that is no
    WebSocket handshake is answered with status 200 and an [uptime_seconds]
    that is a non-negative integer, and of two such requests in one process
    lifetime the later one gets an [uptime_seconds] at least as large, when
    the clock readings are at or after [START_TIME] and do not decrease. *)
Theorem health_uptime_monotone {codec : TextCodec} {static : StaticFolder}
        (i : instance) (g : globals) (t1 t2 : Z) (r1 r2 : request)
        (between : list (Z * request)) :
  req_method r1 = "GET" -> req_path r1 = "/health" ->
  websocket_upgrade (req_headers r1) = false ->
  req_method r2 = "GET" -> req_path r2 = "/health" ->
  websocket_upgrade (req_headers r2) = false ->
  START_TIME g <= t1 -> t1 <= t2 ->
  exists j1 j2 n1 n2,
    fst (serve_instance i g t1 r1)
    = Ok {| status := 200; resp_body := JsonBody j1 |} /\
    fst (serve_instance i
           (serve_instance_all i (snd (serve_instance i g t1 r1)) between)
           t2 r2)
    = Ok {| status := 200; resp_body := JsonBody j2 |} /\
    field "uptime_seconds" j1 = Some (JInt n1) /\
    field "uptime_seconds" j2 = Some (JInt n2) /\
    0 <= n1 /\ n1 <= n2.
Proof.
  intros Hm1 Hp1 Hws1 Hm2 Hp2 Hws2 Hstart Hclock.
  assert (Hst : START_TIME
                  (serve_instance_all i (snd (serve_instance i g t1 r1)) between)
                = START_TIME g).
  { rewrite serve_instance_all_START_TIME. apply serve_instance_log_blind. }
  set (g2 := serve_instance_all i (snd (serve_instance i g t1 r1)) between) in *.
  clearbody g2.
  concrete_request r1. concrete_request r2.
  destruct i;
    (do 2 eexists;
     exists (int_total_seconds (t1 - START_TIME g)),
            (int_total_seconds (t2 - START_TIME g));
     split; [serve_route; rewrite Hws1; reflexivity|];
     split; [serve_route; rewrite Hws2; simpl; rewrite Hst; reflexivity|];
     split; [reflexivity|];
     split; [reflexivity|];
     unfold int_total_seconds; split;
     [apply Z.quot_pos; lia | apply Z.quot_le_mono; lia]).
Qed.

Lemma health_uptime_monotone_witness :
  exists j1 j2 n1 n2,
    fst (serve_instance edge_security boot 2500000
           (sample "GET" "/health" [] "" "10.0.0.1"))
    = Ok {| status := 200; resp_body := JsonBody j1 |} /\
    fst (serve_instance edge_security
           (serve_instance_all edge_security
              (snd (serve_instance edge_security boot 2500000
                      (sample "GET" "/health" [] "" "10.0.0.1")))
              [(3000000, sample "GET" "/api/user" [] "" "10.0.0.2")])
           7900000 (sample "GET" "/health" [] "" "10.0.0.3"))
    = Ok {| status := 200; resp_body := JsonBody j2 |} /\
    field "uptime_seconds" j1 = Some (JInt n1) /\
    field "uptime_seconds" j2 = Some (JInt n2) /\
    0 <= n1 /\ n1 <= n2.
Proof.
  apply (health_uptime_monotone (codec := ascii_codec)
           (static := no_static_files) edge_security boot
           2500000 7900000
           (sample "GET" "/health" [] "" "10.0.0.1")
           (sample "GET" "/health" [] "" "10.0.0.3")
           [(3000000, sample "GET" "/api/user" [] "" "10.0.0.2")]);
    [reflexivity | reflexivity | reflexivity | reflexivity | reflexivity
     | reflexivity | unfold boot; simpl; lia | lia].
Defined.

(** C3 as stated fails: a POST request to /health is a request to /health,
    and either instance answers it with status 405 and no JSON body; and a
    GET request to /health with the two headers of a WebSocket handshake is
    answered with status 400. *)
Lemma health_post_is_not_200 :
  req_path (sample "POST" "/health" [] "" "10.0.0.1") = "/health" /\
  status_of (fst (serve_instance (codec := ascii_codec) edge_security boot 0
                    (sample "POST" "/health" [] "" "10.0.0.1"))) = Some 405 /\
  status_of (fst (serve_instance (codec := ascii_codec) smart_router boot 0
                    (sample "POST" "/health" [] "" "10.0.0.1"))) = Some 405 /\
  json_of (fst (serve_instance (codec := ascii_codec) edge_security boot 0
                  (sample "POST" "/health" [] "" "10.0.0.1"))) = None /\
  fst (serve_instance (codec := ascii_codec) edge_security boot 0
         (sample "GET" "/health" upgrade_headers "" "10.0.0.1"))
  = Ok (default_response 400).
Proof. repeat split; reflexivity. Qed.

(** C5, as amended.  A request whose path no rule matches, neither a rule of
    the instance's own nor the rule of the static folder, with the slashes of
    the path merged or not, is answered with status 404 and the body
    {error: "Not Found", message: "The requested URL <path> was not found",
     status: 404}, with the request's path for <path>. *)
Theorem not_found_body {codec : TextCodec} {static : StaticFolder}
        (i : instance) (g : globals) (t : Z) (req : request) :
  ~ In (req_path req) (routed_paths i) ->
  ~ In (merge_slashes (req_path req)) (routed_paths i) ->
  under_static (req_path req) = false ->
  fst (serve_instance i g t req)
  = Ok {| status := 404;
          resp_body := JsonBody (JObj [
            ("error", JStr "Not Found");
            ("message",
             JStr ("The requested URL " ++ req_path req ++ " was not found"));
            ("status", JInt 404)
          ]) |}.
Proof.
  intros Hpath Hmerged Hstatic.
  unfold under_static in Hstatic.
  destruct (static_match (req_path req)) eqn:Hs1; [discriminate|].
  destruct (static_match (merge_slashes (req_path req))) eqn:Hs2;
    [discriminate|].
  destruct i; serve_route;
    rewrite url_match_NotFound;
    try reflexivity; apply candidates_nil; assumption.
Qed.

Lemma not_found_body_witness :
  fst (serve_instance edge_security boot 0
         (sample "GET" "/nope" [] "" "10.0.0.1"))
  = Ok {| status := 404;
          resp_body := JsonBody (JObj [
            ("error", JStr "Not Found");
            ("message", JStr "The requested URL /nope was not found");
            ("status", JInt 404)
          ]) |}.
Proof.
  apply (not_found_body (codec := ascii_codec) (static := no_static_files)
           edge_security boot 0 (sample "GET" "/nope" [] "" "10.0.0.1")).
  - simpl. intros H.
    repeat (destruct H as [H|H]; [discriminate H|]).
    exact H.
  - simpl. intros H.
    repeat (destruct H as [H|H]; [discriminate H|]).
    exact H.
  - reflexivity.
Defined.

(** C5 as stated fails: no rule takes POST on /health, and the request is
    answered with the framework's page for 405, not with the 404 body; the
    same holds for POST on a path under /static/; and a GET request to
    /api//users, which is the path of no rule, is redirected to
    /api/users. *)
Lemma unmatched_method_is_405 :
  fst (serve_instance (codec := ascii_codec) edge_security boot 0
         (sample "POST" "/health" [] "" "10.0.0.1"))
  = Ok {| status := 405; resp_body := DefaultPage 405 |} /\
  fst (serve_instance (codec := ascii_codec) smart_router boot 0
         (sample "POST" "/health" [] "" "10.0.0.1"))
  = Ok {| status := 405; resp_body := DefaultPage 405 |} /\
  fst (serve_instance (codec := ascii_codec) smart_router boot 0
         (sample "POST" "/static/x.css" [] "" "10.0.0.1"))
  = Ok {| status := 405; resp_body := DefaultPage 405 |} /\
  fst (serve_instance (codec := ascii_codec) edge_security boot 0
         (sample "GET" "/api//users" [] "" "10.0.0.1"))
  = Ok {| status := 308; resp_body := RedirectPage "/api/users" |}.
Proof. repeat split; reflexivity. Qed.

(** C2, as amended.  The response of either instance is a function of the
    current request, the remote address included, and for /health also of
    [START_TIME] and the clock reading: two requests with the same method,
    path, headers, query string, body and remote address get the same
    response, whatever each process has served before, whatever it has
    logged, and whatever other requests are handled at the same time, under
    any interleaving of the accesses of the handlers: the response is the one
    the request gets when it is served alone. *)
Theorem response_function_of_request
        {codec : TextCodec} {static : StaticFolder}
        (i : instance) (g1 g2 : globals) (t1 t2 : Z) (r1 r2 : request)
        (before1 before2 : list (Z * request)) :
  req_method r1 = req_method r2 ->
  req_path r1 = req_path r2 ->
  req_headers r1 = req_headers r2 ->
  req_args r1 = req_args r2 ->
  req_data r1 = req_data r2 ->
  req_remote_addr r1 = req_remote_addr r2 ->
  (req_path r1 = "/health" -> START_TIME g1 = START_TIME g2 /\ t1 = t2) ->
  fst (serve_instance i (serve_instance_all i g1 before1) t1 r1)
  = fst (serve_instance i (serve_instance_all i g2 before2) t2 r2) /\
  forall (others1 others2 : list (Z * request))
         (schedule1 schedule2 : list nat) (res1 res2 : result response),
    answer (snd (serve_concurrently i (serve_instance_all i g1 before1)
                   ((t1, r1) :: others1) schedule1)) 0 = Some res1 ->
    answer (snd (serve_concurrently i (serve_instance_all i g2 before2)
                   ((t2, r2) :: others2) schedule2)) 0 = Some res2 ->
    res1 = res2 /\ res1 = fst (serve_instance i g1 t1 r1).
Proof.
  intros Hmethod Hpath Hheaders Hargs Hdata Hremote Hhealth.
  assert (Hreq : r1 = r2).
  { destruct r1, r2; simpl in *; congruence. }
  subst r2.
  assert (Hsame : forall ga gb,
             START_TIME ga = START_TIME g1 -> START_TIME gb = START_TIME g2 ->
             fst (serve_instance i ga t1 r1) = fst (serve_instance i gb t2 r1)).
  { intros ga gb Ha Hb.
    destruct (String.eqb_spec (req_path r1) "/health") as [Hp|Hp].
    - destruct (Hhealth Hp) as [Hstart <-].
      apply serve_instance_log_blind. congruence.
    - apply serve_instance_request_only. exact Hp. }
  split.
  - apply Hsame; apply serve_instance_all_START_TIME.
  - intros others1 others2 schedule1 schedule2 res1 res2 H1 H2.
    apply (serve_concurrently_alone i _ _ _ 0%nat t1 r1) in H1;
      [|reflexivity].
    apply (serve_concurrently_alone i _ _ _ 0%nat t2 r1) in H2;
      [|reflexivity].
    subst res1 res2. split.
    + apply Hsame; apply serve_instance_all_START_TIME.
    + apply serve_instance_log_blind. apply serve_instance_all_START_TIME.
Qed.

Lemma response_function_of_request_witness :
  exists res1 res2,
    answer (snd (serve_concurrently edge_security boot
                   [(3000000, sample "GET" "/debug/headers"
                                     [("Host", "backend")] "" "10.0.0.1");
                    (1000000, sample "GET" "/api/user" [] "" "10.0.0.2");
                    (2000000, sample "GET" "/health" [] "" "10.0.0.3")]
                   [0; 1; 2; 0; 1; 2; 0; 1; 2; 0; 1; 2]%nat)) 0
    = Some res1 /\
    answer (snd (serve_concurrently edge_security
                   (serve_instance_all edge_security boot
                      [(1000000, sample "GET" "/api/user" [] "" "10.0.0.2")])
                   [(0, sample "GET" "/debug/headers"
                               [("Host", "backend")] "" "10.0.0.1")]
                   [0; 0; 0; 0]%nat)) 0
    = Some res2 /\
    res1 = res2.
Proof.
  do 2 eexists. split; [reflexivity|]. split; [reflexivity|].
  refine (proj1
            (proj2 (response_function_of_request (codec := ascii_codec)
                      (static := no_static_files) edge_security
                      boot boot 3000000 0
                      (sample "GET" "/debug/headers" [("Host", "backend")]
                              "" "10.0.0.1")
                      (sample "GET" "/debug/headers" [("Host", "backend")]
                              "" "10.0.0.1")
                      []
                      [(1000000, sample "GET" "/api/user" [] "" "10.0.0.2")]
                      eq_refl eq_refl eq_refl eq_refl eq_refl eq_refl _)
                   [(1000000, sample "GET" "/api/user" [] "" "10.0.0.2");
                    (2000000, sample "GET" "/health" [] "" "10.0.0.3")]
                   []
                   [0; 1; 2; 0; 1; 2; 0; 1; 2; 0; 1; 2]%nat
                   [0; 0; 0; 0]%nat _ _ eq_refl eq_refl)).
  simpl. discriminate.
Defined.

(** C2 as stated fails: two GET requests to /debug/headers with the same
    method, path, headers, query string and body, sent from two addresses,
    get different bodies. *)
Lemma debug_headers_body_depends_on_peer :
  let r1 := sample "GET" "/debug/headers" [("Host", "backend")] "" "10.0.0.1" in
  let r2 := sample "GET" "/debug/headers" [("Host", "backend")] "" "10.0.0.2" in
  req_method r1 = req_method r2 /\
  req_path r1 = req_path r2 /\
  req_headers r1 = req_headers r2 /\
  req_args r1 = req_args r2 /\
  req_data r1 = req_data r2 /\
  json_of (fst (serve_instance (codec := ascii_codec) edge_security boot 0 r1))
  <> json_of (fst (serve_instance (codec := ascii_codec) edge_security boot 0 r2)) /\
  json_of (fst (serve_instance (codec := ascii_codec) smart_router boot 0 r1))
  <> json_of (fst (serve_instance (codec := ascii_codec) smart_router boot 0 r2)).
Proof.
  simpl. repeat split; try reflexivity; discriminate.
Qed.

(** C6.  Whatever exception a view raises and nothing handles, an
    application with the error handlers of either instance answers with
    status 500 and the body
    {error: "Internal Server Error", message: "An unexpected error occurred",
     status: 500}; the [internal_error] handler of either instance returns
    that response for every exception it is given, so nothing of the
    exception is in the response. *)
Theorem internal_error_fixed_body
        (E : Type) (app : flask E) (ctx : context) (g g' : globals)
        (e : exception) :
  error_handlers app = EdgeSecurity.handlers \/
  error_handlers app = SmartRouter.handlers ->
  full_dispatch_request app ctx g = (Raise e, g') ->
  fst (wsgi_app app ctx g)
  = Ok {| status := 500;
          resp_body := JsonBody (JObj [
            ("error", JStr "Internal Server Error");
            ("message", JStr "An unexpected error occurred");
            ("status", JInt 500)
          ]) |} /\
  forall e' ctx' g0,
    fst (EdgeSecurity.internal_error e' ctx' g0) = fst (wsgi_app app ctx g) /\
    fst (SmartRouter.internal_error e' ctx' g0) = fst (wsgi_app app ctx g).
Proof.
  intros Hhandlers Hraise.
  assert (Hresp : fst (wsgi_app app ctx g)
                  = Ok {| status := 500;
                          resp_body := JsonBody (JObj [
                            ("error", JStr "Internal Server Error");
                            ("message", JStr "An unexpected error occurred");
                            ("status", JInt 500)
                          ]) |}).
  { unfold wsgi_app. rewrite run_try_except, Hraise.
    unfold handle_exception.
    destruct Hhandlers as [ -> | -> ]; reflexivity. }
  split; [exact Hresp|].
  intros e' ctx' g0. rewrite Hresp. split; reflexivity.
Qed.

Lemma internal_error_fixed_body_witness :
  fst (wsgi_app faulty_app
         {| request_ := sample "GET" "/boom" [] "" "10.0.0.1"; now := 0 |} boot)
  = Ok {| status := 500;
          resp_body := JsonBody (JObj [
            ("error", JStr "Internal Server Error");
            ("message", JStr "An unexpected error occurred");
            ("status", JInt 500)
          ]) |}.
Proof.
  exact (proj1 (internal_error_fixed_body unit faulty_app
                  {| request_ := sample "GET" "/boom" [] "" "10.0.0.1";
                     now := 0 |}
                  boot boot (PyError "ZeroDivisionError" "division by zero")
                  (or_introl eq_refl) eq_refl)).
Defined.

(* ------------------------------------------------------------------------- *)
(** ** What serving a request writes to the log *)

Lemma allowed_methods_rule {E : Type} (m : list (rule E)) (method path : string)
      (ru : rule E) :
  In ru m -> rule_path ru = path -> mem method (rule_methods ru) = true ->
  mem method (allowed_methods m path) = true.
Proof.
  intros Hin Hp Hmem. apply mem_In. unfold allowed_methods, rules_on.
  apply in_flat_map. exists ru. split.
  - apply filter_In. split; [exact Hin|]. rewrite Hp. apply String.eqb_refl.
  - apply mem_In. exact Hmem.
Qed.

(** Case analysis on what a request matches: one goal for each rule of the
    instance, with the view applied, one for the static folder, and one for
    each way matching can fail. *)
Ltac by_route i :=
  let ru := fresh "ru" in
  let filename := fresh "filename" in
  let e := fresh "e" in
  let Hm := fresh "Hm" in
  destruct i; serve_route;
  (destruct (url_match _ _ _ _) as [[ru|filename]|e] eqn:Hm;
   [ apply url_match_rule in Hm;
     let Hws := fresh "Hws" in
     let Hin := fresh "Hin" in
     let Hp := fresh "Hp" in
     let Hmem := fresh "Hmem" in
     destruct Hm as (Hws & Hin & Hp & Hmem);
     pose proof (allowed_methods_rule _ _ _ _ Hin Hp Hmem) as Hallowed;
     pose proof (in_map rule_path _ _ Hin) as Hrouted;
     rewrite Hp in Hrouted;
     simpl in Hin;
     repeat (destruct Hin as [<-|Hin]; [simpl in Hp, Hmem|]);
     [..|destruct Hin]
   | simpl; unfold flask_send_static_file; simpl;
     match goal with
     | |- context [static_file ?f ?r] => destruct (static_file f r)
     end; simpl
   | apply url_match_Raise in Hm;
     destruct Hm as [ -> | [ [? ->] | [ -> | -> ] ] ]; simpl ]).

Section LoggingFacts.
Context {codec : TextCodec} {static : StaticFolder}.

(** X3.  Serving a request keeps [START_TIME] and the log level, keeps every
    record already in the log, and adds at most one record; a record that is
    added has a level that is enabled, and it is an INFO or a DEBUG record,
    never an ERROR one. *)
Theorem serve_log_append_only
        (i : instance) (g : globals) (t : Z) (req : request) :
  START_TIME (snd (serve_instance i g t req)) = START_TIME g /\
  log_level (snd (serve_instance i g t req)) = log_level g /\
  exists recs,
    log_records (snd (serve_instance i g t req))
    = (log_records g ++ recs)%list /\
    (length recs <= 1)%nat /\
    Forall (fun r => log_level g <= levelno r /\
                     (levelno r = INFO \/ levelno r = DEBUG)) recs.
Proof.
  assert (Hsame : forall g0 : globals,
             START_TIME g0 = START_TIME g0 /\ log_level g0 = log_level g0 /\
             exists recs,
               log_records g0 = (log_records g0 ++ recs)%list /\
               (length recs <= 1)%nat /\
               Forall (fun r => log_level g0 <= levelno r /\
                                (levelno r = INFO \/ levelno r = DEBUG)) recs).
  { intros g0. repeat split. exists []. rewrite app_nil_r.
    repeat split; [simpl; lia | constructor]. }
  by_route i;
    try (destruct (String.eqb (req_method req) "OPTIONS"); [apply Hsame|]);
    simpl;
    try apply Hsame;
    unfold emit;
    match goal with
    | |- context [Z.leb (log_level g) ?l] =>
        destruct (Z.leb_spec (log_level g) l); simpl; [|apply Hsame];
        repeat split; eexists; split; [reflexivity|];
        split; [simpl; lia|];
        constructor; [|constructor];
        split; [simpl; assumption|];
        simpl; first [left; reflexivity | right; reflexivity]
    end.
Qed.

(** X5.  Some requests leave no trace: a request to /health or /debug/echo,
    a request for a path without a rule, an OPTIONS request and a request
    with a method no rule takes all leave the globals, the log included, as
    they were, whatever the log level. *)
Theorem unlogged_requests
        (i : instance) (g : globals) (t : Z) (req : request) :
  req_path req = "/health" \/
  req_path req = "/debug/echo" \/
  ~ In (req_path req) (routed_paths i) \/
  req_method req = "OPTIONS" \/
  accepts i (req_method req) (req_path req) = false ->
  snd (serve_instance i g t req) = g.
Proof.
  intros Hcase.
  assert (Hopt : req_method req = "OPTIONS" ->
                 String.eqb (req_method req) "OPTIONS" = true)
    by (intros ->; reflexivity).
  revert Hcase. unfold accepts, routed_paths.
  by_route i; intros Hcase;
    try (destruct (String.eqb (req_method req) "OPTIONS") eqn:Hoptions;
         [reflexivity|]);
    try reflexivity;
    repeat match type of Hcase with
           | _ \/ _ => destruct Hcase as [Hcase|Hcase]
           end;
    try congruence;
    try (rewrite <- Hp in Hcase; discriminate Hcase);
    try (specialize (Hopt Hcase); congruence);
    try (exfalso; apply Hcase; exact Hrouted).
Qed.

End LoggingFacts.

(* ------------------------------------------------------------------------- *)
(** ** Routing: which requests reach a view *)

Lemma rules_on_nil {E : Type} (m : list (rule E)) (path : string) :
  rules_on m path = [] <-> ~ In path (map rule_path m).
Proof.
  unfold rules_on. split.
  - intros Hnil Hin. apply in_map_iff in Hin. destruct Hin as (ru & Hp & Hin).
    assert (Hf : In ru (filter (fun ru => String.eqb (rule_path ru) path) m)).
    { apply filter_In. split; [exact Hin|]. rewrite Hp. apply String.eqb_refl. }
    rewrite Hnil in Hf. destruct Hf.
  - intros Hno.
    destruct (filter _ m) as [|ru l] eqn:Hf; [reflexivity|].
    exfalso. apply Hno.
    assert (Hin : In ru (filter (fun ru => String.eqb (rule_path ru) path) m))
      by (rewrite Hf; left; reflexivity).
    apply filter_In in Hin. destruct Hin as [Hin Hp].
    apply String.eqb_eq in Hp. subst path. apply in_map. exact Hin.
Qed.

Section RoutingFacts.
Context {codec : TextCodec} {static : StaticFolder}.

(** The method and path pairs the rules of the instances' own take. *)
Lemma accepts_spec (i : instance) (method path : string) :
  accepts i method path = true <->
  In path (routed_paths i) /\
  (In method ["GET"; "HEAD"; "OPTIONS"] \/
   i = smart_router /\ path = "/debug/echo" /\ method = "POST").
Proof.
  destruct (in_dec string_dec path (routed_paths i)) as [Hin|Hno].
  - destruct i; simpl in Hin;
      repeat (destruct Hin as [<-|Hin];
              [unfold accepts; rewrite mem_In; simpl;
               intuition (try discriminate; try congruence; auto 10)|]);
      destruct Hin.
  - assert (Hfalse : accepts i method path = false).
    { destruct i; unfold accepts, allowed_methods;
        rewrite (proj2 (rules_on_nil _ _) Hno); reflexivity. }
    rewrite Hfalse. split; [discriminate|]. intros [Hin _]. contradiction.
Qed.

Lemma routed_not_static (i : instance) (path : string) :
  In path (routed_paths i) ->
  merge_slashes path = path /\ static_match path = None.
Proof.
  intros Hin.
  destruct i; simpl in Hin;
    repeat (destruct Hin as [<-|Hin]; [split; reflexivity|]);
    destruct Hin.
Qed.

Lemma edge_views_json (e : EdgeSecurity.endpoint) (ctx : context) (g : globals) :
  exists j, fst (EdgeSecurity.views e ctx g) = Ok (jsonify j).
Proof. destruct e; eexists; reflexivity. Qed.

Lemma router_views_json (e : SmartRouter.endpoint) (ctx : context) (g : globals) :
  exists j, fst (SmartRouter.views e ctx g) = Ok (jsonify j).
Proof. destruct e; eexists; reflexivity. Qed.

(** No exception leaves either instance. *)
Lemma serve_instance_total (i : instance) (g : globals) (t : Z)
      (req : request) :
  exists r, fst (serve_instance i g t req) = Ok r.
Proof.
  by_route i;
    try (destruct (String.eqb (req_method req) "OPTIONS"));
    eexists; reflexivity.
Qed.

Ltac method_cases method :=
  destruct (String.eqb method "GET") eqn:?;
  destruct (String.eqb method "HEAD") eqn:?;
  destruct (String.eqb method "OPTIONS") eqn:?;
  destruct (String.eqb method "POST") eqn:?.

(** Matching on a path of a rule of the instance's own. *)
Lemma edge_url_match_routed (websocket : bool) (method path : string) :
  In path (routed_paths edge_security) ->
  match url_match EdgeSecurity.app websocket method path with
  | Ok (MatchedRule _) =>
      accepts edge_security method path = true /\ websocket = false
  | Raise BadRequest =>
      accepts edge_security method path = true /\ websocket = true
  | Raise (MethodNotAllowed _) => accepts edge_security method path = false
  | _ => False
  end.
Proof.
  intros Hin. simpl in Hin.
  repeat (destruct Hin as [<-|Hin];
          [unfold accepts, allowed_methods, rules_on, url_match, candidates;
           simpl; method_cases method; destruct websocket; simpl; auto|]).
  destruct Hin.
Qed.

Lemma router_url_match_routed (websocket : bool) (method path : string) :
  In path (routed_paths smart_router) ->
  match url_match SmartRouter.app websocket method path with
  | Ok (MatchedRule _) =>
      accepts smart_router method path = true /\ websocket = false
  | Raise BadRequest =>
      accepts smart_router method path = true /\ websocket = true
  | Raise (MethodNotAllowed _) => accepts smart_router method path = false
  | _ => False
  end.
Proof.
  intros Hin. simpl in Hin.
  repeat (destruct Hin as [<-|Hin];
          [unfold accepts, allowed_methods, rules_on, url_match, candidates;
           simpl; method_cases method; destruct websocket; simpl; auto|]).
  destruct Hin.
Qed.

Lemma accepts_routed (i : instance) (method path : string) :
  accepts i method path = true -> In path (routed_paths i).
Proof. intros H. apply accepts_spec in H. tauto. Qed.

(** Matching on a path that is the path of no rule and not under /static/:
    the path with its slashes merged decides. *)
Lemma edge_url_match_unrouted (websocket : bool) (method path : string) :
  ~ In path (routed_paths edge_security) ->
  under_static path = false ->
  match url_match EdgeSecurity.app websocket method path with
  | Raise (RequestRedirect new_path) =>
      new_path = merge_slashes path /\
      accepts edge_security method (merge_slashes path) = true /\
      websocket = false
  | Raise BadRequest =>
      accepts edge_security method (merge_slashes path) = true /\
      websocket = true
  | Raise (MethodNotAllowed _) =>
      In (merge_slashes path) (routed_paths edge_security) /\
      accepts edge_security method (merge_slashes path) = false
  | Raise NotFound => ~ In (merge_slashes path) (routed_paths edge_security)
  | _ => False
  end.
Proof.
  intros Hno Hstatic. unfold under_static in Hstatic.
  destruct (static_match path) eqn:Hs1; [discriminate|].
  destruct (static_match (merge_slashes path)) eqn:Hs2; [discriminate|].
  unfold url_match. rewrite (candidates_nil EdgeSecurity.app path Hno Hs1).
  cbn [match_pass].
  destruct (in_dec string_dec (merge_slashes path)
                   (routed_paths edge_security)) as [Hin|Hno2].
  - pose proof Hin as Hin'. simpl in Hin.
    repeat (destruct Hin as [Heq|Hin];
            [rewrite <- Heq in *;
             unfold accepts, allowed_methods, rules_on, candidates;
             simpl; method_cases method; destruct websocket; simpl; auto|]).
    destruct Hin.
  - rewrite (candidates_nil EdgeSecurity.app _ Hno2 Hs2). simpl. exact Hno2.
Qed.

Lemma router_url_match_unrouted (websocket : bool) (method path : string) :
  ~ In path (routed_paths smart_router) ->
  under_static path = false ->
  match url_match SmartRouter.app websocket method path with
  | Raise (RequestRedirect new_path) =>
      new_path = merge_slashes path /\
      accepts smart_router method (merge_slashes path) = true /\
      websocket = false
  | Raise BadRequest =>
      accepts smart_router method (merge_slashes path) = true /\
      websocket = true
  | Raise (MethodNotAllowed _) =>
      In (merge_slashes path) (routed_paths smart_router) /\
      accepts smart_router method (merge_slashes path) = false
  | Raise NotFound => ~ In (merge_slashes path) (routed_paths smart_router)
  | _ => False
  end.
Proof.
  intros Hno Hstatic. unfold under_static in Hstatic.
  destruct (static_match path) eqn:Hs1; [discriminate|].
  destruct (static_match (merge_slashes path)) eqn:Hs2; [discriminate|].
  unfold url_match. rewrite (candidates_nil SmartRouter.app path Hno Hs1).
  cbn [match_pass].
  destruct (in_dec string_dec (merge_slashes path)
                   (routed_paths smart_router)) as [Hin|Hno2].
  - pose proof Hin as Hin'. simpl in Hin.
    repeat (destruct Hin as [Heq|Hin];
            [rewrite <- Heq in *;
             unfold accepts, allowed_methods, rules_on, candidates;
             simpl; method_cases method; destruct websocket; simpl; auto|]).
    destruct Hin.
  - rewrite (candidates_nil SmartRouter.app _ Hno2 Hs2). simpl. exact Hno2.
Qed.

Lemma edge_view_response (ru : rule EdgeSecurity.endpoint) (ctx : context)
      (g : globals) :
  exists j,
    fst (try_except
           (try_except (view_functions EdgeSecurity.app (rule_endpoint ru))
                       (handle_user_exception EdgeSecurity.app))
           (handle_exception EdgeSecurity.app) ctx g) = Ok (jsonify j).
Proof.
  destruct (edge_views_json (rule_endpoint ru) ctx g) as [j Hj].
  exists j.
  rewrite (try_except_Ok _ _ ctx g (jsonify j));
    rewrite (try_except_Ok _ _ ctx g (jsonify j) Hj); exact Hj.
Qed.

Lemma router_view_response (ru : rule SmartRouter.endpoint) (ctx : context)
      (g : globals) :
  exists j,
    fst (try_except
           (try_except (view_functions SmartRouter.app (rule_endpoint ru))
                       (handle_user_exception SmartRouter.app))
           (handle_exception SmartRouter.app) ctx g) = Ok (jsonify j).
Proof.
  destruct (router_views_json (rule_endpoint ru) ctx g) as [j Hj].
  exists j.
  rewrite (try_except_Ok _ _ ctx g (jsonify j));
    rewrite (try_except_Ok _ _ ctx g (jsonify j) Hj); exact Hj.
Qed.

(** X1.  No exception leaves either instance, and the rules decide the
    answer.  On a path of a rule of the instance's own: status 200 when
    the rule takes the method and the request is no WebSocket handshake,
    the framework's page for 400 when the rule takes the method and the
    request is a WebSocket handshake, and the framework's page for 405 when
    the rule does not take the method.  On a path that is the path of no
    rule and does not lie under /static/: a redirect to the path with its
    slashes merged when that is the path of a rule that takes the method and
    the request is no WebSocket handshake, and status 404 when that is the
    path of no rule either. *)
Theorem serve_status_by_route
        (i : instance) (g : globals) (t : Z) (req : request) :
  exists r,
    fst (serve_instance i g t req) = Ok r /\
    (accepts i (req_method req) (req_path req) = true ->
     websocket_upgrade (req_headers req) = false -> status r = 200) /\
    (accepts i (req_method req) (req_path req) = true ->
     websocket_upgrade (req_headers req) = true ->
     r = default_response 400) /\
    (In (req_path req) (routed_paths i) ->
     accepts i (req_method req) (req_path req) = false ->
     r = default_response 405) /\
    (~ In (req_path req) (routed_paths i) ->
     under_static (req_path req) = false ->
     accepts i (req_method req) (merge_slashes (req_path req)) = true ->
     websocket_upgrade (req_headers req) = false ->
     r = redirect_response (merge_slashes (req_path req))) /\
    (~ In (req_path req) (routed_paths i) ->
     under_static (req_path req) = false ->
     ~ In (merge_slashes (req_path req)) (routed_paths i) ->
     status r = 404).
Proof.
  destruct (serve_instance_total i g t req) as [r Hr].
  exists r. split; [exact Hr|].
  destruct (in_dec string_dec (req_path req) (routed_paths i)) as [Hin|Hno].
  - (* a path of a rule of the instance's own *)
    assert (Hcases :
      (accepts i (req_method req) (req_path req) = true ->
       websocket_upgrade (req_headers req) = false -> status r = 200) /\
      (accepts i (req_method req) (req_path req) = true ->
       websocket_upgrade (req_headers req) = true ->
       r = default_response 400) /\
      (accepts i (req_method req) (req_path req) = false ->
       r = default_response 405)).
    { destruct i; revert Hr; serve_route;
        [ pose proof (edge_url_match_routed
                        (websocket_upgrade (req_headers req))
                        (req_method req) (req_path req) Hin) as Hm
        | pose proof (router_url_match_routed
                        (websocket_upgrade (req_headers req))
                        (req_method req) (req_path req) Hin) as Hm ];
        (destruct (url_match _ _ _ _) as [[ru|filename]|e];
         [ destruct Hm as [Hacc Hws];
           destruct (String.eqb (req_method req) "OPTIONS");
           [ intros Hr; simpl in Hr; injection Hr as <-;
             repeat split; intros; try reflexivity; congruence
           | first [ destruct (edge_view_response ru
                                 {| request_ := req; now := t |} g) as [j Hj]
                   | destruct (router_view_response ru
                                 {| request_ := req; now := t |} g) as [j Hj] ];
             rewrite Hj; intros Hr; injection Hr as <-;
             repeat split; intros; try reflexivity; congruence ]
         | destruct Hm
         | destruct e; try contradiction;
           intros Hr; simpl in Hr; injection Hr as <-;
           repeat split; intros; try reflexivity; try congruence;
           destruct Hm; congruence ]). }
    destruct Hcases as (H1 & H2 & H3).
    repeat split; auto; intros; contradiction.
  - (* the path of no rule *)
    assert (Hfalse : accepts i (req_method req) (req_path req) = false).
    { destruct (accepts i (req_method req) (req_path req)) eqn:Hacc;
        [|reflexivity].
      exfalso. apply Hno. apply (accepts_routed _ _ _ Hacc). }
    rewrite Hfalse.
    split; [discriminate|]. split; [discriminate|].
    split; [intros; contradiction|].
    destruct (under_static (req_path req)) eqn:Hstatic;
      [split; intros; discriminate|].
    assert (Hcases :
      (accepts i (req_method req) (merge_slashes (req_path req)) = true ->
       websocket_upgrade (req_headers req) = false ->
       r = redirect_response (merge_slashes (req_path req))) /\
      (~ In (merge_slashes (req_path req)) (routed_paths i) ->
       status r = 404)).
    { destruct i; revert Hr; serve_route;
        [ pose proof (edge_url_match_unrouted
                        (websocket_upgrade (req_headers req))
                        (req_method req) (req_path req) Hno Hstatic) as Hm
        | pose proof (router_url_match_unrouted
                        (websocket_upgrade (req_headers req))
                        (req_method req) (req_path req) Hno Hstatic) as Hm ];
        (destruct (url_match _ _ _ _) as [[ru|filename]|e];
         [ destruct Hm
         | destruct Hm
         | destruct e; try contradiction;
           intros Hr; simpl in Hr; injection Hr as <-;
           split; intros;
           try match goal with
               | H : accepts _ _ _ = true |- _ =>
                   pose proof (accepts_routed _ _ _ H)
               end;
           try reflexivity; try contradiction; try tauto;
           try (destruct Hm as (? & ? & ?); congruence);
           try (destruct Hm as (? & ?); congruence);
           try (destruct Hm as (? & ?); contradiction);
           exfalso;
           match goal with
           | H : ~ In _ _ |- _ => apply H
           end;
           first [ destruct Hm as (_ & Hacc & _) | destruct Hm as (Hacc & _) ];
           exact (accepts_routed _ _ _ Hacc) ]). }
    destruct Hcases as (H4 & H5).
    split; auto.
Qed.

(** X2.  The requests that matching leads to a view of the instance's own:
    those that are no WebSocket handshake, on the path of a rule, with GET,
    HEAD or OPTIONS, or with POST on /debug/echo of the smart router. *)
Theorem reaches_view_iff
        (i : instance) (websocket : bool) (method path : string) :
  reaches_view i websocket method path = true <->
  websocket = false /\
  In path (routed_paths i) /\
  (In method ["GET"; "HEAD"; "OPTIONS"] \/
   i = smart_router /\ path = "/debug/echo" /\ method = "POST").
Proof.
  rewrite <- accepts_spec. split.
  - intros Hreach. unfold reaches_view in Hreach.
    destruct i;
      (destruct (url_match _ _ _ _) as [[ru|filename]|e] eqn:Hm;
       try discriminate;
       apply url_match_rule in Hm; destruct Hm as (Hws & Hin & Hp & Hmem);
       split; [exact Hws|];
       unfold accepts; eapply allowed_methods_rule; eassumption).
  - intros [-> Hacc].
    pose proof (accepts_routed _ _ _ Hacc) as Hin.
    unfold reaches_view.
    destruct i;
      [ pose proof (edge_url_match_routed false method path Hin) as Hm
      | pose proof (router_url_match_routed false method path Hin) as Hm ];
      (destruct (url_match _ _ _ _) as [[ru|filename]|e];
       [ reflexivity
       | destruct Hm
       | destruct e; try destruct Hm; try discriminate; congruence ]).
Qed.

End RoutingFacts.

Lemma serve_status_by_route_witness :
  exists r,
    fst (serve_instance edge_security boot 0
           (sample "DELETE" "/api/users" [] "" "10.0.0.1")) = Ok r /\
    r = default_response 405.
Proof.
  destruct (serve_status_by_route (codec := ascii_codec)
              (static := no_static_files) edge_security boot 0
              (sample "DELETE" "/api/users" [] "" "10.0.0.1"))
    as (r & Hr & _ & _ & H405 & _).
  exists r. split; [exact Hr|].
  apply H405; [simpl; tauto | reflexivity].
Defined.

Lemma unlogged_requests_witness :
  snd (serve_instance edge_security boot 0
         (sample "GET" "/health" [] "" "10.0.0.1")) = boot.
Proof.
  apply (unlogged_requests (codec := ascii_codec) (static := no_static_files)
           edge_security boot 0 (sample "GET" "/health" [] "" "10.0.0.1")).
  left. reflexivity.
Defined.

(** X4.  Request headers reach the log only at DEBUG: with a log level above
    DEBUG no request makes either instance log anything but a fixed message;
    with the level at DEBUG or below, a GET request to /debug/headers that is
    no WebSocket handshake adds one DEBUG record, which carries the mapping
    that the response gives as [headers]: every header name of the request
    with the first value of that name. *)
Theorem headers_logged_only_at_debug
        {codec : TextCodec} {static : StaticFolder}
        (i : instance) (g : globals) (t : Z) (req : request) :
  (DEBUG < log_level g ->
   exists recs,
     log_records (snd (serve_instance i g t req))
     = (log_records g ++ recs)%list /\
     Forall (fun r => arg r = ArgNone) recs) /\
  (log_level g <= DEBUG ->
   req_method req = "GET" -> req_path req = "/debug/headers" ->
   websocket_upgrade (req_headers req) = false ->
   exists d j,
     log_records (snd (serve_instance i g t req))
     = (log_records g
          ++ [{| levelno := DEBUG;
                 msg := "Request headers: {headers}";
                 arg := ArgHeaders d |}])%list /\
     json_of (fst (serve_instance i g t req)) = Some j /\
     field "headers" j = Some (of_str_dict d) /\
     (forall k,
         lookup k d
         = if mem k (keys (req_headers req))
           then headers_find k (req_headers req)
           else None) /\
     (NoDup (map lower (keys (req_headers req))) -> d = req_headers req)).
Proof.
  split.
  - intros Hlevel.
    assert (Hsame : exists recs,
               log_records g = (log_records g ++ recs)%list /\
               Forall (fun r => arg r = ArgNone) recs).
    { exists []. rewrite app_nil_r. split; [reflexivity | constructor]. }
    by_route i;
      try (destruct (String.eqb (req_method req) "OPTIONS"); [apply Hsame|]);
      simpl;
      try apply Hsame;
      unfold emit;
      match goal with
      | |- context [Z.leb (log_level g) ?l] =>
          destruct (Z.leb_spec (log_level g) l); simpl; [|apply Hsame];
          first [ exfalso; unfold DEBUG in *; lia
                | eexists; split; [reflexivity|];
                  constructor; [reflexivity | constructor] ]
      end.
  - intros Hlevel Hmethod Hpath Hws.
    apply Z.leb_le in Hlevel.
    concrete_request req.
    exists (headers_dict headers).
    exists (JObj [("headers", of_str_dict (headers_dict headers));
                  ("method", JStr "GET");
                  ("path", JStr "/debug/headers");
                  ("remote_addr", match remote with
                                  | Some a => JStr a
                                  | None => JNull
                                  end)]).
    split; [destruct i; serve_route; rewrite Hws; simpl; unfold emit;
            rewrite Hlevel; reflexivity|].
    split; [destruct i; serve_route; rewrite Hws; reflexivity|].
    split; [reflexivity|].
    split; [intros k; apply headers_dict_lookup|].
    apply headers_dict_distinct.
Qed.

Lemma headers_logged_only_at_debug_witness :
  (exists recs,
      log_records
        (snd (serve_instance edge_security boot 0
                (sample "GET" "/debug/headers"
                        [("Authorization", "Bearer secret")] "" "10.0.0.1")))
      = (log_records boot ++ recs)%list /\
      Forall (fun r => arg r = ArgNone) recs) /\
  log_records
    (snd (serve_instance edge_security boot_debug 0
            (sample "GET" "/debug/headers"
                    [("Authorization", "Bearer secret")] "" "10.0.0.1")))
  = [{| levelno := DEBUG;
        msg := "Request headers: {headers}";
        arg := ArgHeaders [("Authorization", "Bearer secret")] |}].
Proof.
  split.
  - apply (proj1 (headers_logged_only_at_debug (codec := ascii_codec)
                    (static := no_static_files) edge_security boot 0
                    (sample "GET" "/debug/headers"
                            [("Authorization", "Bearer secret")]
                            "" "10.0.0.1"))).
    unfold boot, DEBUG, INFO. simpl. lia.
  - destruct (proj2 (headers_logged_only_at_debug (codec := ascii_codec)
                       (static := no_static_files) edge_security boot_debug 0
                       (sample "GET" "/debug/headers"
                               [("Authorization", "Bearer secret")]
                               "" "10.0.0.1")))
      as (d & j & Hlog & _ & _ & _ & Hdistinct);
      [unfold boot_debug, DEBUG; simpl; lia | reflexivity | reflexivity
       | reflexivity |].
    rewrite Hlog. rewrite Hdistinct; [reflexivity|].
    repeat constructor; simpl; intuition discriminate.
Defined.



(** X7.  [uptime_seconds] counts whole seconds and rounds toward zero.  For a
    GET request to /health that is no WebSocket handshake, with the clock
    within 2^53 microseconds of [START_TIME]: when the clock is at or after
    [START_TIME], [uptime_seconds] is the number n of whole seconds elapsed,
    n s <= elapsed < (n + 1) s; when the clock is before [START_TIME], it is
    minus the number of whole seconds missing, so 0 for less than a second
    and negative from one second on. *)
Theorem health_uptime_whole_seconds {codec : TextCodec}
        {static : StaticFolder}
        (i : instance) (g : globals) (t : Z) (req : request) :
  req_method req = "GET" ->
  req_path req = "/health" ->
  websocket_upgrade (req_headers req) = false ->
  Z.abs (t - START_TIME g) < 2 ^ 53 ->
  exists j n,
    json_of (fst (serve_instance i g t req)) = Some j /\
    field "uptime_seconds" j = Some (JInt n) /\
    (START_TIME g <= t ->
     0 <= n /\ 1000000 * n <= t - START_TIME g < 1000000 * (n + 1)) /\
    (t < START_TIME g ->
     n <= 0 /\ 1000000 * (n - 1) < t - START_TIME g <= 1000000 * n) /\
    (n < 0 <-> t - START_TIME g <= -1000000).
Proof.
  intros Hmethod Hpath Hws _.
  concrete_request req.
  exists (JObj [("status", JStr "healthy");
                ("version", JStr "1.0.0");
                ("demo", JStr match i with
                              | edge_security => "01-edge-security"
                              | smart_router => "02-smart-router"
                              end);
                ("uptime_seconds",
                 JInt (int_total_seconds (t - START_TIME g)))]),
         (int_total_seconds (t - START_TIME g)).
  split; [destruct i; serve_route; rewrite Hws; reflexivity|].
  split; [reflexivity|].
  unfold int_total_seconds.
  pose proof (Z.quot_rem' (t - START_TIME g) 1000000) as Hqr.
  repeat split; intros.
  - apply Z.quot_pos; lia.
  - pose proof (Z.rem_bound_pos (t - START_TIME g) 1000000). lia.
  - pose proof (Z.rem_bound_pos (t - START_TIME g) 1000000). lia.
  - pose proof (Z.rem_bound_pos_neg (t - START_TIME g) 1000000). lia.
  - pose proof (Z.rem_bound_pos_neg (t - START_TIME g) 1000000). lia.
  - pose proof (Z.rem_bound_pos_neg (t - START_TIME g) 1000000). lia.
  - pose proof (Z.rem_bound_pos_neg (t - START_TIME g) 1000000).
    pose proof (Z.rem_bound_pos (t - START_TIME g) 1000000). lia.
  - pose proof (Z.rem_bound_pos_neg (t - START_TIME g) 1000000). lia.
Qed.

Lemma health_uptime_whole_seconds_witness :
  exists j n,
    json_of (fst (serve_instance edge_security boot (-400000)
                    (sample "GET" "/health" [] "" "10.0.0.1"))) = Some j /\
    field "uptime_seconds" j = Some (JInt n) /\
    n <= 0 /\ 1000000 * (n - 1) < -400000 <= 1000000 * n.
Proof.
  destruct (health_uptime_whole_seconds (codec := ascii_codec)
              (static := no_static_files) edge_security
              boot (-400000) (sample "GET" "/health" [] "" "10.0.0.1")
              eq_refl eq_refl eq_refl)
    as (j & n & Hj & Hn & _ & Hbefore & _).
  - unfold boot. simpl. lia.
  - exists j, n. split; [exact Hj|]. split; [exact Hn|].
    apply Hbefore. unfold boot. simpl. lia.
Defined.

(** X8.  A GET request to /api/user of the edge-security instance that is no
    WebSocket handshake is answered with the record in clear: ssn
    123-45-6789, payment.card_number 4111-1111-1111-1111, the email address
    and the phone number, so the tree has fields named ssn, payment and
    card_number. *)
Theorem get_user_carries_pii {codec : TextCodec} {static : StaticFolder}
        (g : globals) (t : Z) (req : request) :
  req_method req = "GET" ->
  req_path req = "/api/user" ->
  websocket_upgrade (req_headers req) = false ->
  exists j,
    json_of (fst (serve_instance edge_security g t req)) = Some j /\
    field "ssn" j = Some (JStr "123-45-6789") /\
    field2 "payment" "card_number" j = Some (JStr "4111-1111-1111-1111") /\
    field "email" j = Some (JStr "john.doe@example.com") /\
    field "phone" j = Some (JStr "555-123-4567") /\
    has_field "ssn" j = true /\
    has_field "payment" j = true /\
    has_field "card_number" j = true.
Proof.
  intros Hmethod Hpath Hws.
  concrete_request req.
  eexists. split; [serve_route; rewrite Hws; reflexivity|].
  repeat split; reflexivity.
Qed.

Lemma get_user_carries_pii_witness :
  exists j,
    json_of (fst (serve_instance edge_security boot 0
                    (sample "GET" "/api/user" [] "" "10.0.0.1"))) = Some j /\
    field "ssn" j = Some (JStr "123-45-6789") /\
    field2 "payment" "card_number" j = Some (JStr "4111-1111-1111-1111").
Proof.
  destruct (get_user_carries_pii (codec := ascii_codec)
              (static := no_static_files) boot 0
              (sample "GET" "/api/user" [] "" "10.0.0.1")
              eq_refl eq_refl eq_refl)
    as (j & Hj & Hssn & Hcard & _).
  exists j. auto.
Defined.

(** X9.  In the answers to GET /v1/api/data and GET /v2/api/data of the
    smart router, for requests that are no WebSocket handshakes,
    [data.count] is the length of [data.items], and the items of v2 are the
    items of v1 followed by two more. *)
Theorem data_count_matches_items {codec : TextCodec} {static : StaticFolder}
        (g1 g2 : globals) (t1 t2 : Z) (r1 r2 : request) :
  req_method r1 = "GET" -> req_path r1 = "/v1/api/data" ->
  websocket_upgrade (req_headers r1) = false ->
  req_method r2 = "GET" -> req_path r2 = "/v2/api/data" ->
  websocket_upgrade (req_headers r2) = false ->
  exists j1 j2 items1 items2 more,
    json_of (fst (serve_instance smart_router g1 t1 r1)) = Some j1 /\
    json_of (fst (serve_instance smart_router g2 t2 r2)) = Some j2 /\
    field2 "data" "items" j1 = Some (JArr items1) /\
    field2 "data" "items" j2 = Some (JArr items2) /\
    field2 "data" "count" j1 = Some (JInt (Z.of_nat (length items1))) /\
    field2 "data" "count" j2 = Some (JInt (Z.of_nat (length items2))) /\
    items2 = (items1 ++ more)%list /\
    length more = 2%nat.
Proof.
  intros Hm1 Hp1 Hws1 Hm2 Hp2 Hws2.
  concrete_request r1. concrete_request r2.
  do 4 eexists. exists [JStr "item4-new"; JStr "item5-beta"].
  split; [serve_route; rewrite Hws1; reflexivity|].
  split; [serve_route; rewrite Hws2; reflexivity|].
  repeat split; reflexivity.
Qed.

Lemma data_count_matches_items_witness :
  exists j1 items1,
    json_of (fst (serve_instance smart_router boot 0
                    (sample "GET" "/v1/api/data" [] "" "10.0.0.1")))
    = Some j1 /\
    field2 "data" "items" j1 = Some (JArr items1) /\
    field2 "data" "count" j1 = Some (JInt (Z.of_nat (length items1))).
Proof.
  destruct (data_count_matches_items (codec := ascii_codec)
              (static := no_static_files) boot boot 0 0
              (sample "GET" "/v1/api/data" [] "" "10.0.0.1")
              (sample "GET" "/v2/api/data" [] "" "10.0.0.1")
              eq_refl eq_refl eq_refl eq_refl eq_refl eq_refl)
    as (j1 & j2 & items1 & items2 & more & Hj1 & _ & Hi1 & _ & Hc1 & _).
  exists j1, items1. auto.
Defined.

(** X10.  For GET requests with the same headers that are no WebSocket
    handshakes, the v1 answer (from /v1/api/version or /api/version) and the
    v2 answer (from /v2/api/version) have the same [routing_info] and differ
    in [version]: "v1" against "v2-beta".  Every feature flag of v1 is
    false, every feature flag of v2 is true, and v2 has every flag v1
    has. *)
Theorem version_v1_v2_relation {codec : TextCodec} {static : StaticFolder}
        (g1 g2 : globals) (t1 t2 : Z) (r1 r2 : request) :
  req_method r1 = "GET" ->
  req_path r1 = "/v1/api/version" \/ req_path r1 = "/api/version" ->
  req_method r2 = "GET" -> req_path r2 = "/v2/api/version" ->
  req_headers r1 = req_headers r2 ->
  websocket_upgrade (req_headers r1) = false ->
  exists j1 j2 info flags1 flags2,
    json_of (fst (serve_instance smart_router g1 t1 r1)) = Some j1 /\
    json_of (fst (serve_instance smart_router g2 t2 r2)) = Some j2 /\
    field "routing_info" j1 = Some info /\
    field "routing_info" j2 = Some info /\
    field "version" j1 = Some (JStr "v1") /\
    field "version" j2 = Some (JStr "v2-beta") /\
    field "features" j1 = Some (JObj flags1) /\
    field "features" j2 = Some (JObj flags2) /\
    Forall (fun kv => snd kv = JBool false) flags1 /\
    Forall (fun kv => snd kv = JBool true) flags2 /\
    incl (keys flags1) (keys flags2).
Proof.
  intros Hm1 Hp1 Hm2 Hp2 Hheaders Hws.
  concrete_request r1. concrete_request r2.
  destruct Hp1 as [ -> | -> ];
    (do 5 eexists;
     split; [serve_route; rewrite Hws; reflexivity|];
     split; [serve_route; rewrite Hws; reflexivity|];
     do 6 (split; [reflexivity|]);
     split; [repeat constructor|];
     split; [repeat constructor|];
     intros k Hk; simpl in *; tauto).
Qed.

Lemma version_v1_v2_relation_witness :
  exists j1 j2 info,
    json_of (fst (serve_instance smart_router boot 0
                    (sample "GET" "/api/version"
                            [("X-Routed-By", "filter-x")] "" "10.0.0.1")))
    = Some j1 /\
    json_of (fst (serve_instance smart_router boot 0
                    (sample "GET" "/v2/api/version"
                            [("X-Routed-By", "filter-x")] "" "10.0.0.1")))
    = Some j2 /\
    field "routing_info" j1 = Some info /\
    field "routing_info" j2 = Some info.
Proof.
  destruct (version_v1_v2_relation (codec := ascii_codec)
              (static := no_static_files) boot boot 0 0
              (sample "GET" "/api/version"
                      [("X-Routed-By", "filter-x")] "" "10.0.0.1")
              (sample "GET" "/v2/api/version"
                      [("X-Routed-By", "filter-x")] "" "10.0.0.1")
              eq_refl (or_intror eq_refl) eq_refl eq_refl eq_refl eq_refl)
    as (j1 & j2 & info & _ & _ & Hj1 & Hj2 & Hi1 & Hi2 & _).
  exists j1, j2, info. auto.
Defined.

(** X11.  When request handling raises, two ERROR records reach the log if
    ERROR is enabled: Flask's own record of the exception, with the path and
    the method of the request, and then the record of the [internal_error]
    handler of either instance, which carries the error; otherwise the log
    stays as it is.  Every earlier record is kept. *)
Theorem internal_error_logged
        (E : Type) (app : flask E) (ctx : context) (g g' : globals)
        (e : exception) :
  error_handlers app = EdgeSecurity.handlers \/
  error_handlers app = SmartRouter.handlers ->
  full_dispatch_request app ctx g = (Raise e, g') ->
  log_records (snd (wsgi_app app ctx g))
  = if Z.leb (log_level g') ERROR
    then (log_records g'
            ++ [{| levelno := ERROR;
                   msg := "Exception on {request.path} [{request.method}]";
                   arg := ArgRequest (req_path (request_ ctx))
                                     (req_method (request_ ctx)) e |};
                {| levelno := ERROR;
                   msg := "Internal error: {error}";
                   arg := ArgError (InternalServerError e) |}])%list
    else log_records g'.
Proof.
  intros Hhandlers Hraise.
  unfold wsgi_app. rewrite run_try_except, Hraise.
  unfold handle_exception.
  destruct Hhandlers as [ -> | -> ]; simpl; unfold emit; simpl;
    destruct (Z.leb (log_level g') ERROR) eqn:Hlevel; simpl;
    rewrite ?Hlevel; simpl; rewrite <- ?app_assoc; reflexivity.
Qed.

Lemma internal_error_logged_witness :
  log_records
    (snd (wsgi_app faulty_app
            {| request_ := sample "GET" "/boom" [] "" "10.0.0.1"; now := 0 |}
            boot))
  = [{| levelno := ERROR;
        msg := "Exception on {request.path} [{request.method}]";
        arg := ArgRequest "/boom" "GET"
                          (PyError "ZeroDivisionError" "division by zero") |};
     {| levelno := ERROR;
        msg := "Internal error: {error}";
        arg := ArgError (InternalServerError
                           (PyError "ZeroDivisionError" "division by zero")) |}].
Proof.
  exact (internal_error_logged unit faulty_app
           {| request_ := sample "GET" "/boom" [] "" "10.0.0.1"; now := 0 |}
           boot boot (PyError "ZeroDivisionError" "division by zero")
           (or_introl eq_refl) eq_refl).
Defined.
